(** * tkMacOSXSysTray: the "systray" and "sysnotify" commands

  A shallow embedding of [macosx/tkMacOSXSysTray.c].  The two adapters
  ([TkStatusItem], [TkNotifyItem]), the process-wide globals ([tk_item],
  [notify_item], [callbackproc]) and the interpreter are gathered in one
  [World]; every procedure of the file is a function on worlds.  What the
  file calls but does not define (the toolkit's image functions, the
  native text conversion, the platform version) is the [Host]. *)

From Stdlib Require Import ZArith Lia Bool Ascii String.
From stdpp Require Import base option list gmap strings.

Local Open Scope string_scope.
Local Open Scope Z_scope.

(** ** C strings and C integers *)

Module CString.

(** A [string] stands for the characters a [char *] points to; reading
    past its end yields the terminating NUL. *)
Definition NUL : ascii := Ascii.zero.

Definition uchar (c : ascii) : Z := Z.of_N (N_of_ascii c).

Definition deref (s : string) : ascii :=
  match s with
  | EmptyString => NUL
  | String c _ => c
  end.

Definition next (s : string) : string :=
  match s with
  | EmptyString => EmptyString
  | String _ r => r
  end.

Fixpoint strlen (s : string) : nat :=
  match s with
  | EmptyString => O
  | String c r => if Ascii.eqb c NUL then O else S (strlen r)
  end.

Fixpoint strncmp (s1 s2 : string) (n : nat) : Z :=
  match n with
  | O => 0
  | S n' =>
      let c1 := deref s1 in
      let c2 := deref s2 in
      if negb (Ascii.eqb c1 c2) then uchar c1 - uchar c2
      else if Ascii.eqb c1 NUL then 0
      else strncmp (next s1) (next s2) n'
  end.

Fixpoint strcmp (s1 s2 : string) : Z :=
  match s1 with
  | EmptyString => uchar NUL - uchar (deref s2)
  | String c1 r1 =>
      let c2 := deref s2 in
      if negb (Ascii.eqb c1 c2) then uchar c1 - uchar c2
      else if Ascii.eqb c1 NUL then 0
      else strcmp r1 (next s2)
  end.

(** The double-quote character, escaped in the C string literals. *)
Definition dquote : string := String (ascii_of_nat 34) EmptyString.

(** A well-formed C string has no NUL among its characters. *)
Fixpoint cstring (s : string) : bool :=
  match s with
  | EmptyString => true
  | String c r => negb (Ascii.eqb c NUL) && cstring r
  end.

(** [int length = strlen(...)]: a [size_t] stored in a 32-bit [int], and
    the [int] passed back where a [size_t] is expected. *)
Definition INT_MAX : Z := 2147483647.

Definition int_of_size_t (n : Z) : Z := (n + 2 ^ 31) mod 2 ^ 32 - 2 ^ 31.

Definition size_t_of_int (i : Z) : Z := i mod 2 ^ 64.

End CString.

Import CString.

(** ** The host: what the file uses and does not define *)

Record TkWindow (Display : Type) : Type := { display : Display }.

Arguments display {Display} _.

Class Host : Type := {
Display : Type;
Tk_Image : Type;
NSImage : Type;
NSString : Type;
(** [[NSApp macOSVersion]] *)
macOSVersion : Z;
(** [Tk_GetImage(interp, tkwin, name, NULL, NULL)]: given the interpreter's
    result on entry, the image handle (or NULL) and the result it leaves. *)
Tk_GetImage : string -> TkWindow Display -> string -> option Tk_Image * string;
(** [Tk_SizeOfImage(image, &width, &height)] *)
Tk_SizeOfImage : Tk_Image -> Z * Z;
(** [TkMacOSXGetNSImageFromTkImage(display, image, width, height)] *)
TkMacOSXGetNSImageFromTkImage : Display -> Tk_Image -> Z -> Z -> option NSImage;
(** [[NSString stringWithUTF8String: s]], nil when [s] does not convert *)
stringWithUTF8String : string -> option NSString
}.

Inductive TclCode : Set := TCL_OK | TCL_ERROR.

Inductive CmdProc : Set := MacSystrayCmd_proc | SysNotifyCmd_proc.

Inductive CmdDeleteProc : Set := MacSystrayDestroy_proc | SysNotifyDeleteCmd_proc.

Record Command : Set := {
cmdProc : CmdProc;
deleteProc : CmdDeleteProc
}.

Section Model.

Context `{host : Host}.

(** *** Data *)

Record Tcl_Interp : Type := {
  result : string;
  commands : gmap string Command;
  mainWindow : option (TkWindow Display)
}.

Record NSStatusItem : Type := {
  button_image : option NSImage;
  button_toolTip : option NSString;
  button_target_self : bool;
  visible : bool
}.

Record TkStatusItem : Type := {
  statusItem : NSStatusItem;
  (** whether the system status bar still holds [statusItem] *)
  in_statusBar : bool;
  icon : option NSImage;
  tooltip : option NSString
}.

Inductive SoundName : Set := NSUserNotificationDefaultSoundName.

Record NSUserNotification : Type := {
  title : option NSString;
  informativeText : option NSString;
  soundName : option SoundName
}.

Record TkNotifyItem : Type := {
  tk_notification : option NSUserNotification;
  header : option NSString;
  info : option NSString
}.

Record NSUserNotificationCenter : Type := {
  delegate_is_notify_item : bool;
  delivered : list NSUserNotification
}.

Record World : Type := {
  interp : Tcl_Interp;
  tk_item : option TkStatusItem;
  notify_item : option TkNotifyItem;
  callbackproc : option string;
  center : NSUserNotificationCenter;
  (** image handles obtained from [Tk_GetImage] and not yet freed *)
  image_handles : nat
}.

Definition with_interp (i : Tcl_Interp) (w : World) : World :=
  {| interp := i; tk_item := tk_item w; notify_item := notify_item w;
     callbackproc := callbackproc w; center := center w;
     image_handles := image_handles w |}.

Definition with_tk_item (t : option TkStatusItem) (w : World) : World :=
  {| interp := interp w; tk_item := t; notify_item := notify_item w;
     callbackproc := callbackproc w; center := center w;
     image_handles := image_handles w |}.

Definition with_notify_item (n : option TkNotifyItem) (w : World) : World :=
  {| interp := interp w; tk_item := tk_item w; notify_item := n;
     callbackproc := callbackproc w; center := center w;
     image_handles := image_handles w |}.

Definition with_callbackproc (c : option string) (w : World) : World :=
  {| interp := interp w; tk_item := tk_item w; notify_item := notify_item w;
     callbackproc := c; center := center w;
     image_handles := image_handles w |}.

Definition with_center (c : NSUserNotificationCenter) (w : World) : World :=
  {| interp := interp w; tk_item := tk_item w; notify_item := notify_item w;
     callbackproc := callbackproc w; center := c;
     image_handles := image_handles w |}.

Definition with_image_handles (n : nat) (w : World) : World :=
  {| interp := interp w; tk_item := tk_item w; notify_item := notify_item w;
     callbackproc := callbackproc w; center := center w;
     image_handles := n |}.

(** *** The interpreter *)

(** The variadic [Tcl_AppendResult(interp, s1, ..., (char * ) NULL)]: [args]
    are the arguments before the closing NULL; a NULL among them closes
    the list early. *)
Fixpoint append_until_null (args : list (option string)) : string :=
  match args with
  | Some s :: rest => s +:+ append_until_null rest
  | _ => ""
  end.

Definition Tcl_AppendResult (args : list (option string)) (w : World) : World :=
  with_interp
    {| result := result (interp w) +:+ append_until_null args;
       commands := commands (interp w);
       mainWindow := mainWindow (interp w) |} w.

(** [Tcl_CreateCommand]: the command table gets [name]; what the interpreter
    does with a command of that name it replaces is outside this file. *)
Definition Tcl_CreateCommand (name : string) (p : CmdProc) (d : CmdDeleteProc)
    (w : World) : World :=
  with_interp
    {| result := result (interp w);
       commands := <[name := {| cmdProc := p; deleteProc := d |}]> (commands (interp w));
       mainWindow := mainWindow (interp w) |} w.

Definition Tk_MainWindow (w : World) : option (TkWindow Display) :=
  mainWindow (interp w).

(** [argv[i]]: [None] is the NULL that closes [argv] (or a read past it). *)
Definition arg (argv : list string) (i : nat) : option string := argv !! i.

Definition argc_of (argv : list string) : Z := Z.of_nat (length argv).

(** *** TkStatusItem *)

Definition TkStatusItem_init : TkStatusItem :=
  {| statusItem := {| button_image := None; button_toolTip := None;
                      button_target_self := true; visible := true |};
     in_statusBar := true;
     icon := None;
     tooltip := None |}.

Definition setImagewithImage (image : option NSImage) (self : TkStatusItem)
    : TkStatusItem :=
  {| statusItem := {| button_image := image;
                      button_toolTip := button_toolTip (statusItem self);
                      button_target_self := button_target_self (statusItem self);
                      visible := visible (statusItem self) |};
     in_statusBar := in_statusBar self;
     icon := image;
     tooltip := tooltip self |}.

Definition setTextwithString (str : option NSString) (self : TkStatusItem)
    : TkStatusItem :=
  {| statusItem := {| button_image := button_image (statusItem self);
                      button_toolTip := str;
                      button_target_self := button_target_self (statusItem self);
                      visible := visible (statusItem self) |};
     in_statusBar := in_statusBar self;
     icon := icon self;
     tooltip := str |}.

Definition TkStatusItem_dealloc (self : TkStatusItem) : TkStatusItem :=
  {| statusItem := statusItem self;
     in_statusBar := false;
     icon := icon self;
     tooltip := tooltip self |}.

(** A message to the global [tk_item]; a message to nil does nothing. *)
Definition send_tk_item (m : TkStatusItem -> TkStatusItem) (w : World) : World :=
  with_tk_item (m <$> tk_item w) w.

(** *** TkNotifyItem *)

Definition TkNotifyItem_init : TkNotifyItem :=
  {| tk_notification :=
       Some {| title := None; informativeText := None; soundName := None |};
     header := None;
     info := None |}.

Definition postNotificationWithTitle (ttl detail : option NSString)
    (self : TkNotifyItem) (c : NSUserNotificationCenter)
    : TkNotifyItem * NSUserNotificationCenter :=
  let n :=
    (fun _ : NSUserNotification =>
       {| title := ttl; informativeText := detail;
          soundName := Some NSUserNotificationDefaultSoundName |})
      <$> tk_notification self in
  ({| tk_notification := n; header := ttl; info := detail |},
   {| delegate_is_notify_item := true;
      delivered := delivered c ++ option_list n |}).

Definition TkNotifyItem_dealloc (self : TkNotifyItem) : TkNotifyItem :=
  {| tk_notification := None; header := header self; info := info self |}.

(** *** Control flow of a command procedure *)

Inductive Step : Type :=
| Continue (w : World)                (* fall through to the next statement *)
| Return (code : TclCode) (w : World) (* a [return] statement *)
| Crash.                              (* undefined behaviour *)

Definition bind (s : Step) (k : World -> Step) : Step :=
  match s with
  | Continue w => k w
  | Return c w => Return c w
  | Crash => Crash
  end.

Inductive Outcome : Type :=
| Returned (code : TclCode) (w : World)
| Undefined.

(** [Tcl_AppendResult(interp, ..., NULL); return TCL_ERROR;] *)
Definition fail (args : list (option string)) (w : World) : Step :=
  Return TCL_ERROR (Tcl_AppendResult args w).

(** *** MacSystrayCmd *)

(** The test of one branch of the dispatcher,
    [(strncmp(argv[1], name, length) == 0) && (length >= 2)]. *)
Definition subcommand_matches (name word : string) : bool :=
  let len := int_of_size_t (Z.of_nat (strlen word)) in
  (strncmp word name (Z.to_nat (size_t_of_int len)) =? 0) && (2 <=? len).

(** "Create the icon" of the [create] branch. *)
Definition create_icon (argv : list string) (w : World) : Step :=
  match Tk_MainWindow w with
  | None => Crash
  | Some winPtr =>
      let d := display winPtr in
      match arg argv 2 with
      | None => Crash
      | Some tk_imagename =>
          let '(tk_image, res) := Tk_GetImage (result (interp w)) winPtr tk_imagename in
          let w := with_interp {| result := res; commands := commands (interp w);
                                  mainWindow := mainWindow (interp w) |} w in
          match tk_image with
          | None => fail [Some " unable to obtain image for systray icon"] w
          | Some tk_image =>
              let w := with_image_handles (S (image_handles w)) w in
              let '(width, height) := Tk_SizeOfImage tk_image in
              if negb (width =? 0) && negb (height =? 0) then
                let icon := TkMacOSXGetNSImageFromTkImage d tk_image width height in
                let w := send_tk_item (setImagewithImage icon) w in
                Continue (with_image_handles (Nat.pred (image_handles w)) w)
              else Continue w
          end
      end
  end.

(** "Set the text for the tooltip" of the [create] branch. *)
Definition create_tooltip (argv : list string) (w : World) : Step :=
  match arg argv 3 with
  | None => Crash
  | Some text =>
      match stringWithUTF8String text with
      | None => fail [Some " unable to set tooltip for systray icon"] w
      | Some tooltip => Continue (send_tk_item (setTextwithString (Some tooltip)) w)
      end
  end.

(** "Set the proc for the callback" of the [create] branch. *)
Definition create_callback (argv : list string) (w : World) : Step :=
  let w := with_callbackproc (arg argv 4) w in
  match callbackproc w with
  | None => fail [Some " unable to get the callback for systray icon"] w
  | Some _ => Continue w
  end.

(** "Modify the icon". *)
Definition modify_icon (modifyitem : string) (argv : list string) (w : World) : Step :=
  if strcmp modifyitem "image" =? 0 then
    match Tk_MainWindow w with
    | None => Crash
    | Some winPtr =>
        let d := display winPtr in
        match arg argv 3 with
        | None => Crash
        | Some tk_imagename =>
            let '(tk_image, res) := Tk_GetImage (result (interp w)) winPtr tk_imagename in
            let w := with_interp {| result := res; commands := commands (interp w);
                                    mainWindow := mainWindow (interp w) |} w in
            match tk_image with
            | None => fail [Some " unable to obtain image for systray icon"] w
            | Some tk_image =>
                let w := with_image_handles (S (image_handles w)) w in
                let '(width, height) := Tk_SizeOfImage tk_image in
                let w :=
                  if negb (width =? 0) && negb (height =? 0) then
                    let icon := TkMacOSXGetNSImageFromTkImage d tk_image width height in
                    send_tk_item (setImagewithImage icon) w
                  else w in
                Continue (with_image_handles (Nat.pred (image_handles w)) w)
            end
        end
    end
  else Continue w.

(** "Modify the text for the tooltip". *)
Definition modify_tooltip (modifyitem : string) (argv : list string) (w : World) : Step :=
  if strcmp modifyitem "text" =? 0 then
    match arg argv 3 with
    | None => Crash
    | Some text =>
        match stringWithUTF8String text with
        | None => fail [Some " unable to set tooltip for systray icon"] w
        | Some tooltip => Continue (send_tk_item (setTextwithString (Some tooltip)) w)
        end
    end
  else Continue w.

(** "Modify the proc for the callback". *)
Definition modify_callback (modifyitem : string) (argv : list string) (w : World) : Step :=
  if strcmp modifyitem "callback" =? 0 then
    let w := with_callbackproc (arg argv 3) w in
    match callbackproc w with
    | None => fail [Some " unable to get the callback for systray icon"] w
    | Some _ => Continue w
    end
  else Continue w.

Definition MacSystrayCmd_body (sub : string) (argv : list string) (w : World) : Step :=
  if subcommand_matches "create" sub then
    if argc_of argv <? 5 then
      fail [Some (" wrong # args: should be " +:+ dquote +:+
                  "systray create image ? text? callback?" +:+ dquote)] w
    else
      bind (create_icon argv w) (fun w =>
      bind (create_tooltip argv w) (fun w =>
      create_callback argv w))
  else if subcommand_matches "modify" sub then
    if argc_of argv <? 4 then
      fail [Some ("wrong # args: should be " +:+ dquote +:+
                  "systray modify object item?" +:+ dquote)] w
    else
      match arg argv 2 with
      | None => Crash
      | Some modifyitem =>
          bind (modify_icon modifyitem argv w) (fun w =>
          bind (modify_tooltip modifyitem argv w) (fun w =>
          modify_callback modifyitem argv w))
      end
  else if subcommand_matches "destroy" sub then
    Continue (send_tk_item TkStatusItem_dealloc w)
  else Continue w.

(** [length = strlen(argv[1])] is the first statement: with no [argv[1]] the
    procedure has no defined behaviour.  Falling off the branches reaches the
    closing [return TCL_OK]. *)
Definition MacSystrayCmd (w : World) (argv : list string) : Outcome :=
  match arg argv 1 with
  | None => Undefined
  | Some sub =>
      match MacSystrayCmd_body sub argv w with
      | Continue w' => Returned TCL_OK w'
      | Return code w' => Returned code w'
      | Crash => Undefined
      end
  end.

Definition MacSystrayDestroy (w : World) : World :=
  send_tk_item TkStatusItem_dealloc w.

(** *** SysNotifyCmd *)

Definition SysNotifyDeleteCmd (w : World) : World :=
  with_notify_item (TkNotifyItem_dealloc <$> notify_item w) w.

Definition SysNotifyCmd (w : World) (argv : list string) : Outcome :=
  if argc_of argv <? 3 then
    Returned TCL_ERROR
      (Tcl_AppendResult
         [Some "wrong # args,must be:"; arg argv 0; Some " title  message "] w)
  else
    match arg argv 1, arg argv 2 with
    | Some a1, Some a2 =>
        let ttl := stringWithUTF8String a1 in
        let message := stringWithUTF8String a2 in
        match notify_item w with
        | None => Returned TCL_OK w
        | Some self =>
            let '(self', c') := postNotificationWithTitle ttl message self (center w) in
            Returned TCL_OK (with_center c' (with_notify_item (Some self') w))
        end
    | _, _ => Undefined
    end.

(** *** MacSystrayInit *)

Definition MacSystrayInit (w : World) : TclCode * World :=
  let w := with_tk_item (Some TkStatusItem_init) w in
  let w := with_notify_item (Some TkNotifyItem_init) w in
  if macOSVersion <? 101000 then
    (TCL_OK,
     Tcl_AppendResult
       [Some "Statusitem icons not supported on versions of macOS lower than 10.10"] w)
  else
    let w := Tcl_CreateCommand "_systray" MacSystrayCmd_proc MacSystrayDestroy_proc w in
    let w := Tcl_CreateCommand "_sysnotify" SysNotifyCmd_proc SysNotifyDeleteCmd_proc w in
    (TCL_OK, w).

End Model.

(** *** What a script can observe of the status item *)

Section Observations.

Context `{host : Host}.

(** The image of the status item: the one its button shows and the adapter's
    own reference. *)
Definition item_image (w : World) : option (option NSImage * option NSImage) :=
  (fun self => (button_image (statusItem self), icon self)) <$> tk_item w.

(** The tooltip of the status item, likewise. *)
Definition item_tooltip (w : World) : option (option NSString * option NSString) :=
  (fun self => (button_toolTip (statusItem self), tooltip self)) <$> tk_item w.

End Observations.

(** ** A concrete host

    A toolkit with three images, [icon] (16x16), [blank] (0x0) and [strip]
    (16x0), and a text conversion that rejects the bytes 0xFE and 0xFF, which
    no UTF-8 text contains. *)

Module Demo.

Fixpoint utf8_plausible (s : string) : bool :=
  match s with
  | EmptyString => true
  | String c r => (uchar c <? 254) && utf8_plausible r
  end.

Definition images : list (string * (Z * Z)) :=
  [("icon", (16, 16)); ("blank", (0, 0)); ("strip", (16, 0))].

Definition size_of (name : string) : option (Z * Z) :=
  snd <$> List.find (fun e => String.eqb (fst e) name) images.

Definition host (version : Z) : Host :=
  {| Display := unit;
     Tk_Image := string;
     NSImage := string * (Z * Z);
     NSString := string;
     macOSVersion := version;
     Tk_GetImage := fun res _ name =>
       match size_of name with
       | Some _ => (Some name, res)
       | None => (None, "image " +:+ dquote +:+ name +:+ dquote +:+ " doesn't exist")
       end;
     Tk_SizeOfImage := fun image => default (0, 0) (size_of image);
     TkMacOSXGetNSImageFromTkImage := fun _ image width height =>
       Some (image, (width, height));
     stringWithUTF8String := fun s => if utf8_plausible s then Some s else None |}.

(** macOS 10.15 and macOS 10.9. *)
Definition modern : Host := host 101500.
Definition old : Host := host 100900.

(** The process before [MacSystrayInit]: globals are NULL, no command is
    registered, the interpreter has a main window. *)
Definition fresh {h : Host} (d : @Display h) : World :=
  {| interp := {| result := ""; commands := ∅;
                  mainWindow := Some {| display := d |} |};
     tk_item := None;
     notify_item := None;
     callbackproc := None;
     center := {| delegate_is_notify_item := false; delivered := [] |};
     image_handles := O |}.

Definition started : @World modern := snd (MacSystrayInit (fresh (h := modern) tt)).

(** A tooltip argument that does not convert. *)
Definition bad_text : string := String (ascii_of_nat 255) "x".

End Demo.

(** *** Clicks and sequences of invocations *)

Section Events.

Context `{host : Host}.

(** An entry of the toolkit's list of main windows, as [TkGetMainInfoList]
    returns it ([None] for NULL, the empty list). *)
Record TkMainInfo : Type := { info_interp : Tcl_Interp }.

(** What [clickOnStatusItem] asks of the interpreter. *)
Inductive ClickEffect : Type :=
| Ignored                                   (* the body of the [if] is skipped *)
| GlobalEval (i : Tcl_Interp) (script : option string)
                                            (* Tcl_GlobalEval(info->interp, callbackproc) *)
| NullMainInfo.                             (* info->interp with info NULL *)

(** [clickOnStatusItem:], given [NSApp.currentEvent.clickCount] and the
    answer of [TkGetMainInfoList()].  The code keeps in [callbackproc] the
    caller's pointer [argv[4]] or [argv[3]], not a copy of the text:
    [callbackproc w] is what that pointer designates in the world [w] of the
    click, which is the argument only as long as the caller has left that
    memory alone. *)
Definition clickOnStatusItem (clickCount : Z) (info : option TkMainInfo) (w : World)
    : ClickEffect :=
  if clickCount =? 1 then
    match info with
    | None => NullMainInfo
    | Some info => GlobalEval (info_interp info) (callbackproc w)
    end
  else Ignored.

(** [userNotificationCenter:shouldPresentNotification:] *)
Definition shouldPresentNotification (self : TkNotifyItem) (notification : NSUserNotification)
    : bool := true.

(** [[[TkStatusItem alloc] init]] sends the new NSStatusItem the messages
    [button] and [setVisible:].  Whether the platform's NSStatusItem responds
    to them is the host's; a message it does not respond to raises before
    [init] returns. *)
Definition TkStatusItem_alloc_init (responds : bool) : option TkStatusItem :=
  if responds then Some TkStatusItem_init else None.

(** [MacSystrayInit] from its first statement on: it reaches its version test
    only when the construction of the status item has completed. *)
Definition MacSystrayInit_outcome (responds : bool) (w : World) : Outcome :=
  match TkStatusItem_alloc_init responds with
  | Some _ => let '(code, w') := MacSystrayInit w in Returned code w'
  | None => Undefined
  end.

(** One invocation of either command procedure, and a sequence of them run
    one after the other whatever their return codes; the sequence has no
    outcome once an invocation has undefined behaviour. *)
Inductive Call : Type :=
| Systray (argv : list string)
| Sysnotify (argv : list string).

Definition call (c : Call) (w : World) : Outcome :=
  match c with
  | Systray argv => MacSystrayCmd w argv
  | Sysnotify argv => SysNotifyCmd w argv
  end.

Fixpoint calls (cs : list Call) (w : World) : option World :=
  match cs with
  | [] => Some w
  | c :: rest =>
      match call c w with
      | Returned _ w' => calls rest w'
      | Undefined => None
      end
  end.

(** Both adapters are allocated and the notify adapter still has its
    notification. *)
Definition adapters_live (w : World) : bool :=
  match tk_item w, notify_item w with
  | Some _, Some self =>
      match tk_notification self with
      | Some _ => true
      | None => false
      end
  | _, _ => false
  end.

(** The status item is allocated and the status bar no longer holds it. *)
Definition item_removed (w : World) : bool :=
  match tk_item w with
  | Some self => negb (in_statusBar self)
  | None => false
  end.

End Events.

(** [word] abbreviates [name]: it is a prefix of it of at least two
    characters. *)
Definition abbreviates (name word : string) : bool :=
  String.prefix word name && (2 <=? String.length word)%nat.

Section Frames.

Context `{host : Host}.

(** What no step of the tray command alters: the notification side, the
    command table and the main window; and what it only ever does to the
    status item: keep it allocated, and keep it out of the status bar once it
    is out. *)
Definition tray_keeps (w w' : World) : Prop :=
  notify_item w' = notify_item w /\
  center w' = center w /\
  commands (interp w') = commands (interp w) /\
  mainWindow (interp w') = mainWindow (interp w) /\
  (is_Some (tk_item w') <-> is_Some (tk_item w)) /\
  (item_removed w = true -> item_removed w' = true).

Definition step_keeps (w : World) (s : Step) : Prop :=
  match s with
  | Continue w' => tray_keeps w w'
  | Return _ w' => tray_keeps w w'
  | Crash => True
  end.

End Frames.

(** * Properties *)

(** ** C strings *)

Lemma uchar_inj (a b : ascii) : uchar a = uchar b -> a = b.
Proof.
  unfold uchar. intros E. apply N2Z.inj in E.
  rewrite <- (ascii_N_embedding a), <- (ascii_N_embedding b). now rewrite E.
Qed.

Lemma uchar_diff (a b : ascii) : Ascii.eqb a b = false -> uchar a - uchar b <> 0.
Proof.
  intros E D. apply Ascii.eqb_neq in E. apply E, uchar_inj. lia.
Qed.

Lemma strlen_cstring (s : string) : cstring s = true -> strlen s = String.length s.
Proof.
  induction s as [|c r IH]; simpl; [reflexivity|].
  intros [Hc Hr]%andb_true_iff. apply negb_true_iff in Hc. rewrite Hc.
  now rewrite IH.
Qed.

(** Over the whole length of a well-formed [w], [strncmp] is a prefix test. *)
Lemma strncmp_prefix (w s : string) :
  cstring w = true ->
  strncmp w s (String.length w) = 0 <-> String.prefix w s = true.
Proof.
  revert s. induction w as [|c r IH]; intros s Hw; simpl.
  - destruct s; simpl; tauto.
  - simpl in Hw. apply andb_true_iff in Hw as [Hc Hr]. apply negb_true_iff in Hc.
    destruct s as [|c' s']; simpl.
    + fold NUL. rewrite Hc. simpl. split; [|discriminate].
      intros D. exfalso. revert D. now apply uchar_diff.
    + destruct (ascii_dec c c') as [->|Hne].
      * rewrite Ascii.eqb_refl. simpl. rewrite Hc. now apply IH.
      * apply Ascii.eqb_neq in Hne. rewrite Hne. simpl. split; [|discriminate].
        intros D. exfalso. revert D. now apply uchar_diff.
Qed.

Lemma strncmp_head (w s : string) (n : nat) :
  strncmp w s (S n) = 0 -> deref w = deref s.
Proof.
  simpl. destruct (Ascii.eqb (deref w) (deref s)) eqn:E; simpl.
  - intros _. now apply Ascii.eqb_eq.
  - intros D. exfalso. revert D. now apply uchar_diff.
Qed.

(** On well-formed strings [strcmp] returns 0 exactly on equal strings. *)
Lemma strcmp_eq (a b : string) :
  cstring a = true -> cstring b = true -> strcmp a b = 0 <-> a = b.
Proof.
  revert b. induction a as [|c r IH]; intros b Ha Hb; simpl.
  - destruct b as [|c' b']; simpl; [tauto|].
    simpl in Hb. apply andb_true_iff in Hb as [Hc _]. apply negb_true_iff in Hc.
    split; [|discriminate]. intros D. exfalso.
    assert (uchar c' - uchar NUL <> 0) by now apply uchar_diff. lia.
  - simpl in Ha. apply andb_true_iff in Ha as [Hc Hr]. apply negb_true_iff in Hc.
    destruct b as [|c' b']; simpl.
    + fold NUL. rewrite Hc. simpl. split; [|discriminate].
      intros D. exfalso. revert D. now apply uchar_diff.
    + simpl in Hb. apply andb_true_iff in Hb as [_ Hb'].
      destruct (Ascii.eqb c c') eqn:E; simpl.
      * apply Ascii.eqb_eq in E. subst c'. rewrite Hc.
        rewrite (IH b' Hr Hb'). split; [now intros ->|now intros [= ->]].
      * split.
        -- intros D. exfalso. revert D. now apply uchar_diff.
        -- intros [= -> _]. now rewrite Ascii.eqb_refl in E.
Qed.

Lemma int_of_size_t_small (n : Z) : 0 <= n <= INT_MAX -> int_of_size_t n = n.
Proof.
  unfold int_of_size_t, INT_MAX. intros H.
  rewrite Z.mod_small; lia.
Qed.

Lemma size_t_of_int_small (i : Z) : 0 <= i <= INT_MAX -> size_t_of_int i = i.
Proof.
  unfold size_t_of_int, INT_MAX. intros H. apply Z.mod_small. lia.
Qed.

(** ** Subcommand matching *)

Lemma subcommand_matches_prefix (name word : string) :
  cstring word = true ->
  Z.of_nat (String.length word) <= INT_MAX ->
  subcommand_matches name word = true
  <-> String.prefix word name = true /\ (2 <= String.length word)%nat.
Proof.
  intros Hw Hlen. unfold subcommand_matches.
  rewrite (strlen_cstring _ Hw).
  rewrite int_of_size_t_small by lia.
  rewrite size_t_of_int_small by lia.
  rewrite Nat2Z.id, andb_true_iff, Z.eqb_eq, Z.leb_le.
  rewrite (strncmp_prefix word name Hw). intuition lia.
Qed.

(** No word selects both the [create] and the [modify] branch, so the order
    of the tests does not matter for [modify]. *)
Lemma matches_modify_not_create (word : string) :
  subcommand_matches "modify" word = true ->
  subcommand_matches "create" word = false.
Proof.
  unfold subcommand_matches.
  set (len := int_of_size_t _). intros [Hm Hl]%andb_true_iff.
  apply Z.leb_le in Hl. apply Z.eqb_eq in Hm.
  assert (Hn : exists n, Z.to_nat (size_t_of_int len) = S n).
  { unfold size_t_of_int.
    destruct (Z.to_nat (len mod 2 ^ 64)) eqn:E; [|eauto].
    exfalso. unfold int_of_size_t in len.
    assert (0 <= len mod 2 ^ 64) by (apply Z.mod_pos_bound; lia).
    assert (len < 2 ^ 64) by (subst len; pose proof (Z.mod_pos_bound
      (Z.of_nat (strlen word) + 2 ^ 31) (2 ^ 32)); lia).
    rewrite Z.mod_small in E by lia. lia. }
  destruct Hn as [n Hn]. rewrite Hn in Hm |- *.
  apply strncmp_head in Hm. simpl in Hm.
  apply andb_false_iff. left. apply Z.eqb_neq.
  intros Hc. apply strncmp_head in Hc. simpl in Hc. congruence.
Qed.

(** C4.  A subcommand word selects [create], [modify] or [destroy] exactly
    when it is a prefix of that name and has at least two characters; the
    word "c" does not select [create], the word "cr" does. *)
Theorem subcommand_prefix_rule (word : string) :
  cstring word = true ->
  Z.of_nat (String.length word) <= INT_MAX ->
  (subcommand_matches "create" word = true
   <-> String.prefix word "create" = true /\ (2 <= String.length word)%nat) /\
  (subcommand_matches "modify" word = true
   <-> String.prefix word "modify" = true /\ (2 <= String.length word)%nat) /\
  (subcommand_matches "destroy" word = true
   <-> String.prefix word "destroy" = true /\ (2 <= String.length word)%nat) /\
  subcommand_matches "create" "c" = false /\
  subcommand_matches "create" "cr" = true.
Proof.
  intros Hw Hlen.
  split; [now apply subcommand_matches_prefix|].
  split; [now apply subcommand_matches_prefix|].
  split; [now apply subcommand_matches_prefix|].
  split; vm_compute; reflexivity.
Qed.

Lemma subcommand_prefix_rule_cr :
  cstring "cr" = true /\
  (subcommand_matches "create" "cr" = true
   <-> String.prefix "cr" "create" = true /\ (2 <= String.length "cr")%nat).
Proof.
  split; [reflexivity|].
  apply (subcommand_prefix_rule "cr"); [reflexivity | vm_compute; discriminate].
Defined.


(** ** The tray command *)

Section Systray.

Context `{host : Host}.

Implicit Types (w : World) (argv : list string).

Lemma arg_argc (argv : list string) (i : nat) (s : string) :
  arg argv i = Some s -> Z.of_nat i < argc_of argv.
Proof.
  unfold arg, argc_of. intros E. apply lookup_lt_Some in E. lia.
Qed.

Lemma argc_arg (argv : list string) (i : nat) :
  Z.of_nat i < argc_of argv -> exists s, arg argv i = Some s.
Proof.
  unfold arg, argc_of. intros L.
  destruct (lookup_lt_is_Some_2 argv i) as [s E]; [lia | eauto].
Qed.

(** An error return appends to the interpreter's result and touches neither
    the adapters nor the callback. *)
Lemma fail_frame (args : list (option string)) w :
  exists w', fail args w = Return TCL_ERROR w' /\
             tk_item w' = tk_item w /\ callbackproc w' = callbackproc w.
Proof. eexists. split; [reflexivity|]. split; reflexivity. Qed.

(** The callback step never takes its error branch when the argument is
    there. *)
Lemma create_callback_present argv w (cb : string) :
  arg argv 4 = Some cb ->
  create_callback argv w = Continue (with_callbackproc (Some cb) w).
Proof. unfold create_callback. intros ->. reflexivity. Qed.

Lemma modify_callback_present argv w (cb : string) :
  arg argv 3 = Some cb ->
  modify_callback "callback" argv w = Continue (with_callbackproc (Some cb) w).
Proof. unfold modify_callback. intros ->. reflexivity. Qed.

(** C10.  [MacSystrayCmd] takes the length of [argv[1]] before it looks at
    [argc]: invoked with the command name alone it has no defined behaviour,
    and whenever it returns there were at least two words.  Conversely, with
    two words and a main window it always returns. *)
Theorem MacSystrayCmd_needs_subcommand w argv :
  ((length argv < 2)%nat -> MacSystrayCmd w argv = Undefined) /\
  ((exists code w', MacSystrayCmd w argv = Returned code w') -> (2 <= length argv)%nat) /\
  ((2 <= length argv)%nat -> Tk_MainWindow w <> None ->
   exists code w', MacSystrayCmd w argv = Returned code w').
Proof.
  assert (Hshort : (length argv < 2)%nat -> MacSystrayCmd w argv = Undefined).
  { intros L. unfold MacSystrayCmd, arg.
    rewrite (lookup_ge_None_2 argv 1) by lia. reflexivity. }
  split; [exact Hshort|]. split.
  - intros (code & w' & E).
    destruct (Nat.lt_ge_cases (length argv) 2) as [L|L]; [|exact L].
    rewrite (Hshort L) in E. discriminate.
  - intros L Hwin. unfold MacSystrayCmd.
    destruct (argc_arg argv 1) as [sub ->]; [unfold argc_of; lia|].
    destruct (Tk_MainWindow w) as [winPtr|] eqn:Ewin; [|congruence].
    unfold MacSystrayCmd_body.
    destruct (subcommand_matches "create" sub).
    { destruct (argc_of argv <? 5) eqn:Ec; [simpl; eauto|].
      apply Z.ltb_ge in Ec.
      destruct (argc_arg argv 2) as [name E2]; [lia|].
      destruct (argc_arg argv 3) as [text E3]; [lia|].
      destruct (argc_arg argv 4) as [cb E4]; [lia|].
      unfold create_icon. rewrite Ewin, E2.
      destruct (Tk_GetImage _ _ _) as [[tk_image|] res]; [|simpl; eauto].
      destruct (Tk_SizeOfImage tk_image) as [width height].
      destruct (negb (width =? 0) && negb (height =? 0)); simpl;
        unfold create_tooltip; rewrite E3;
        (destruct (stringWithUTF8String text); [|simpl; eauto]);
        simpl; rewrite (create_callback_present _ _ cb E4); eauto. }
    destruct (subcommand_matches "modify" sub).
    { destruct (argc_of argv <? 4) eqn:Ec; [simpl; eauto|].
      apply Z.ltb_ge in Ec.
      destruct (argc_arg argv 2) as [modifyitem E2]; [lia|].
      destruct (argc_arg argv 3) as [a3 E3]; [lia|].
      rewrite E2.
      assert (Htail : forall w1, exists code w',
        match bind (modify_tooltip modifyitem argv w1)
                (fun w2 => modify_callback modifyitem argv w2) with
        | Continue w' => Returned TCL_OK w'
        | Return code w' => Returned code w'
        | Crash => Undefined
        end = Returned code w').
      { intros w1. unfold modify_tooltip, modify_callback. rewrite E3.
        destruct (strcmp modifyitem "text" =? 0).
        - destruct (stringWithUTF8String a3); simpl; [|eauto].
          destruct (strcmp modifyitem "callback" =? 0); simpl; eauto.
        - simpl. destruct (strcmp modifyitem "callback" =? 0); simpl; eauto. }
      unfold modify_icon. rewrite Ewin, E3.
      destruct (strcmp modifyitem "image" =? 0); [|apply Htail].
      destruct (Tk_GetImage _ _ _) as [[tk_image|] res]; [|simpl; eauto].
      destruct (Tk_SizeOfImage tk_image) as [width height].
      apply Htail. }
    destruct (subcommand_matches "destroy" sub); eauto.
Qed.

Lemma strcmp_differs (a b : string) :
  cstring a = true -> cstring b = true -> a <> b -> (strcmp a b =? 0) = false.
Proof.
  intros Ha Hb Hne. apply Z.eqb_neq. intros E. now apply Hne, strcmp_eq.
Qed.

(** The image, tooltip and callback read off equal adapters are equal. *)
Lemma same_item_same_fields w w' :
  tk_item w' = tk_item w ->
  item_image w' = item_image w /\ item_tooltip w' = item_tooltip w.
Proof. unfold item_image, item_tooltip. now intros ->. Qed.

(** C7.  [modify] with at least four words and a target word other than
    [image], [text] and [callback] returns TCL_OK in the very world it was
    called in: no field changes and nothing is added to the result. *)
Theorem modify_unknown_target_is_noop w argv (sub target : string) :
  arg argv 1 = Some sub ->
  subcommand_matches "modify" sub = true ->
  4 <= argc_of argv ->
  arg argv 2 = Some target ->
  cstring target = true ->
  target <> "image" -> target <> "text" -> target <> "callback" ->
  MacSystrayCmd w argv = Returned TCL_OK w.
Proof.
  intros E1 Hm Hc E2 Ht Hi Hx Hb.
  unfold MacSystrayCmd, MacSystrayCmd_body.
  rewrite E1, (matches_modify_not_create _ Hm), Hm.
  apply Z.ltb_ge in Hc. rewrite Hc, E2.
  unfold modify_icon, modify_tooltip, modify_callback.
  rewrite !strcmp_differs by (assumption || reflexivity).
  reflexivity.
Qed.

(** C3.  When the image name of [create] or of [modify image] does not
    resolve, the command returns TCL_ERROR and the image, the tooltip and the
    stored callback are those of before the call. *)
Theorem unresolved_image_changes_nothing w argv (sub name res : string)
    (winPtr : TkWindow Display) :
  arg argv 1 = Some sub ->
  Tk_MainWindow w = Some winPtr ->
  Tk_GetImage (result (interp w)) winPtr name = (None, res) ->
  (subcommand_matches "create" sub = true /\ arg argv 2 = Some name) \/
  (subcommand_matches "modify" sub = true /\
   arg argv 2 = Some "image" /\ arg argv 3 = Some name) ->
  exists w',
    MacSystrayCmd w argv = Returned TCL_ERROR w' /\
    item_image w' = item_image w /\
    item_tooltip w' = item_tooltip w /\
    callbackproc w' = callbackproc w.
Proof.
  intros E1 Ewin Eimg Hcase.
  cut (exists w', MacSystrayCmd w argv = Returned TCL_ERROR w' /\
                  tk_item w' = tk_item w /\ callbackproc w' = callbackproc w).
  { intros (w' & E & Ht & Hc). exists w'. split; [exact E|].
    destruct (same_item_same_fields _ _ Ht). auto. }
  unfold MacSystrayCmd, MacSystrayCmd_body. rewrite E1.
  destruct Hcase as [[Hm E2] | (Hm & E2 & E3)].
  - rewrite Hm. destruct (argc_of argv <? 5).
    + eexists. split; [reflexivity|]. split; reflexivity.
    + unfold create_icon. rewrite Ewin, E2, Eimg.
      eexists. split; [reflexivity|]. split; reflexivity.
  - rewrite (matches_modify_not_create _ Hm), Hm.
    destruct (argc_of argv <? 4).
    + eexists. split; [reflexivity|]. split; reflexivity.
    + rewrite E2. unfold modify_icon.
      replace (strcmp "image" "image" =? 0) with true by reflexivity.
      rewrite Ewin, E3, Eimg.
      eexists. split; [reflexivity|]. split; reflexivity.
Qed.

(** C2.  [create] with an image of non-zero area and a tooltip that does not
    convert returns TCL_ERROR, yet the status item already shows the new
    image; its tooltip and the stored callback are untouched. *)
Theorem create_bad_tooltip_keeps_new_image w argv (sub name res text : string)
    (winPtr : TkWindow Display) (tk_image : Tk_Image) (width height : Z)
    (self : TkStatusItem) :
  arg argv 1 = Some sub ->
  subcommand_matches "create" sub = true ->
  5 <= argc_of argv ->
  tk_item w = Some self ->
  Tk_MainWindow w = Some winPtr ->
  arg argv 2 = Some name ->
  Tk_GetImage (result (interp w)) winPtr name = (Some tk_image, res) ->
  Tk_SizeOfImage tk_image = (width, height) ->
  width <> 0 -> height <> 0 ->
  arg argv 3 = Some text ->
  stringWithUTF8String text = None ->
  exists w',
    MacSystrayCmd w argv = Returned TCL_ERROR w' /\
    (let new := TkMacOSXGetNSImageFromTkImage (display winPtr) tk_image width height in
     item_image w' = Some (new, new)) /\
    item_tooltip w' = item_tooltip w /\
    callbackproc w' = callbackproc w.
Proof.
  intros E1 Hm Hc Hself Ewin E2 Eimg Esize Hw Hh E3 Etext.
  unfold MacSystrayCmd, MacSystrayCmd_body. rewrite E1, Hm.
  apply Z.ltb_ge in Hc. rewrite Hc.
  unfold create_icon. rewrite Ewin, E2, Eimg, Esize.
  apply Z.eqb_neq in Hw, Hh. rewrite Hw, Hh. simpl.
  unfold create_tooltip. rewrite E3, Etext. simpl.
  eexists. split; [reflexivity|].
  unfold item_image, item_tooltip. simpl. rewrite Hself. simpl.
  repeat split; reflexivity.
Qed.

(** Comparisons of two string literals are evaluated. *)
Ltac eval_strcmp :=
  repeat match goal with
  | |- context [strcmp ?a ?b =? 0] =>
      let v := eval vm_compute in (strcmp a b =? 0) in
      change (strcmp a b =? 0) with v
  end.


(** C6, as the code has it.  An image with a zero width or height is never
    put on the status item and the image step raises no error: [modify image]
    returns TCL_OK with the adapters and the callback untouched, and [create]
    goes on to its tooltip and callback steps, returning TCL_OK exactly when
    the tooltip converts. *)
Theorem zero_area_image_is_skipped w argv (sub name res : string)
    (winPtr : TkWindow Display) (tk_image : Tk_Image) (width height : Z) :
  arg argv 1 = Some sub ->
  Tk_MainWindow w = Some winPtr ->
  Tk_GetImage (result (interp w)) winPtr name = (Some tk_image, res) ->
  Tk_SizeOfImage tk_image = (width, height) ->
  width = 0 \/ height = 0 ->
  (subcommand_matches "modify" sub = true ->
   arg argv 2 = Some "image" -> arg argv 3 = Some name ->
   exists w',
     MacSystrayCmd w argv = Returned TCL_OK w' /\
     tk_item w' = tk_item w /\ callbackproc w' = callbackproc w) /\
  (subcommand_matches "create" sub = true ->
   5 <= argc_of argv -> arg argv 2 = Some name ->
   exists code w' text,
     arg argv 3 = Some text /\
     MacSystrayCmd w argv = Returned code w' /\
     item_image w' = item_image w /\
     (code = TCL_OK <-> stringWithUTF8String text <> None)).
Proof.
  intros E1 Ewin Eimg Esize Hzero.
  assert (Hskip : negb (width =? 0) && negb (height =? 0) = false).
  { destruct Hzero as [-> | ->]; [reflexivity|]. now rewrite andb_false_r. }
  unfold MacSystrayCmd, MacSystrayCmd_body. rewrite E1. split.
  - intros Hm E2 E3. rewrite (matches_modify_not_create _ Hm), Hm.
    assert (Hc : (argc_of argv <? 4) = false).
    { apply Z.ltb_ge. pose proof (arg_argc _ _ _ E3). lia. }
    rewrite Hc, E2.
    unfold modify_icon, modify_tooltip, modify_callback; eval_strcmp; cbv iota.
    rewrite Ewin, E3, Eimg, Esize, Hskip. simpl.
    eexists. split; [reflexivity|]. split; reflexivity.
  - intros Hm Hc E2. rewrite Hm.
    destruct (argc_arg argv 3) as [text E3]; [lia|].
    destruct (argc_arg argv 4) as [cb E4]; [lia|].
    apply Z.ltb_ge in Hc. rewrite Hc.
    unfold create_icon. rewrite Ewin, E2, Eimg, Esize, Hskip. simpl.
    unfold create_tooltip. rewrite E3.
    destruct (stringWithUTF8String text) as [t|] eqn:Et; simpl.
    + rewrite (create_callback_present _ _ cb E4).
      exists TCL_OK. eexists. exists text. rewrite Et.
      split; [reflexivity|]. split; [reflexivity|].
      split; [|easy].
      unfold item_image. simpl. destruct (tk_item w); reflexivity.
    + exists TCL_ERROR. eexists. exists text. rewrite Et.
      split; [reflexivity|]. split; [reflexivity|].
      split; [reflexivity|]. split; [discriminate|congruence].
Qed.

(** C9, as the code has it.  Past the argument-count check the callback
    argument is never NULL, so the callback step never takes its error
    branch and stores the argument: [modify callback] always returns TCL_OK
    with the argument stored, and [create] stores it whenever it returns
    TCL_OK; a [create] that returns TCL_ERROR failed on the image or on the
    tooltip and left the stored callback as it was. *)
Theorem callback_argument_is_never_null w argv (sub : string) :
  arg argv 1 = Some sub ->
  (subcommand_matches "create" sub = true -> 5 <= argc_of argv ->
   exists cb,
     arg argv 4 = Some cb /\
     (forall w1, create_callback argv w1 = Continue (with_callbackproc (Some cb) w1)) /\
     (forall w', MacSystrayCmd w argv = Returned TCL_OK w' ->
                 callbackproc w' = Some cb) /\
     (forall w', MacSystrayCmd w argv = Returned TCL_ERROR w' ->
                 callbackproc w' = callbackproc w /\
                 exists pre,
                   result (interp w') = pre +:+ " unable to obtain image for systray icon" \/
                   result (interp w') = pre +:+ " unable to set tooltip for systray icon")) /\
  (subcommand_matches "modify" sub = true -> 4 <= argc_of argv ->
   arg argv 2 = Some "callback" ->
   exists cb,
     arg argv 3 = Some cb /\
     (forall w1, modify_callback "callback" argv w1 = Continue (with_callbackproc (Some cb) w1)) /\
     MacSystrayCmd w argv = Returned TCL_OK (with_callbackproc (Some cb) w)).
Proof.
  intros E1. unfold MacSystrayCmd, MacSystrayCmd_body. rewrite E1. split.
  - intros Hm Hc. rewrite Hm.
    destruct (argc_arg argv 2) as [name E2]; [lia|].
    destruct (argc_arg argv 3) as [text E3]; [lia|].
    destruct (argc_arg argv 4) as [cb E4]; [lia|].
    apply Z.ltb_ge in Hc. rewrite Hc.
    exists cb. split; [exact E4|].
    split; [intros w1; now apply create_callback_present|].
    unfold create_icon, create_tooltip. rewrite E2, E3.
    destruct (Tk_MainWindow w) as [winPtr|]; [|split; intros w'; discriminate].
    destruct (Tk_GetImage _ _ _) as [[tk_image|] res].
    + destruct (Tk_SizeOfImage tk_image) as [width height].
      destruct (negb (width =? 0) && negb (height =? 0)); simpl;
        (destruct (stringWithUTF8String text) as [t|]; simpl;
         [rewrite (create_callback_present _ _ cb E4)|]);
        (split; intros w'; [intros [= <-] | intros [= <-]]); simpl;
        try reflexivity; (split; [reflexivity|]); eexists; right; reflexivity.
    + simpl. split; intros w'; [discriminate|]. intros [= <-]. simpl.
      split; [reflexivity|]. eexists. left. reflexivity.
  - intros Hm Hc E2. rewrite (matches_modify_not_create _ Hm), Hm.
    destruct (argc_arg argv 3) as [cb E3]; [lia|].
    apply Z.ltb_ge in Hc. rewrite Hc, E2.
    exists cb. split; [exact E3|].
    split; [intros w1; now apply modify_callback_present|].
    unfold modify_icon, modify_tooltip; eval_strcmp; cbv iota. simpl.
    now rewrite (modify_callback_present _ _ cb E3).
Qed.

End Systray.

(** ** The notification command *)

Section Sysnotify.

Context `{host : Host}.

(** C8, as the code has it.  [_sysnotify title message] returns TCL_OK, and
    when title and message both convert to native text it leaves the adapter
    and its notification holding exactly that title and that message; a word
    that does not convert is no error and leaves nil in its place.  With fewer
    than two arguments after the command name the command returns TCL_ERROR
    and appends a usage message that names the two arguments. *)
Theorem SysNotifyCmd_converted_title_and_message (w : World) :
  (forall (cmd ttl message : string) (self : TkNotifyItem) (n : NSUserNotification)
          (t m : NSString),
     notify_item w = Some self ->
     tk_notification self = Some n ->
     stringWithUTF8String ttl = Some t ->
     stringWithUTF8String message = Some m ->
     exists w',
       SysNotifyCmd w [cmd; ttl; message] = Returned TCL_OK w' /\
       notify_item w' =
         Some {| tk_notification :=
                   Some {| title := Some t;
                           informativeText := Some m;
                           soundName := Some NSUserNotificationDefaultSoundName |};
                 header := Some t;
                 info := Some m |}) /\
  (forall (cmd ttl message : string) (self : TkNotifyItem) (n : NSUserNotification),
     notify_item w = Some self ->
     tk_notification self = Some n ->
     exists w' self' n',
       SysNotifyCmd w [cmd; ttl; message] = Returned TCL_OK w' /\
       notify_item w' = Some self' /\
       tk_notification self' = Some n' /\
       (stringWithUTF8String ttl = None -> title n' = None /\ header self' = None) /\
       (stringWithUTF8String message = None ->
        informativeText n' = None /\ info self' = None)) /\
  (forall argv : list string,
     argc_of argv < 3 ->
     exists w' hint,
       SysNotifyCmd w argv = Returned TCL_ERROR w' /\
       notify_item w' = notify_item w /\
       result (interp w') = result (interp w) +:+ "wrong # args,must be:" +:+ hint /\
       (forall cmd rest, argv = cmd :: rest -> hint = cmd +:+ " title  message ")).
Proof.
  split; [|split].
  - intros cmd ttl message self n t m Hself Hn Ht Hm.
    unfold SysNotifyCmd. simpl. rewrite Hself, Ht, Hm.
    unfold postNotificationWithTitle. rewrite Hn. simpl.
    eexists. split; reflexivity.
  - intros cmd ttl message self n Hself Hn.
    unfold SysNotifyCmd. simpl. rewrite Hself.
    unfold postNotificationWithTitle. rewrite Hn. simpl.
    eexists. eexists. eexists.
    split; [reflexivity|]. split; [reflexivity|]. split; [reflexivity|].
    simpl. split; intros ->; split; reflexivity.
  - intros argv Hc. unfold SysNotifyCmd.
    apply Z.ltb_lt in Hc. rewrite Hc.
    eexists. exists (append_until_null [arg argv 0; Some " title  message "]).
    split; [reflexivity|]. split; [reflexivity|]. split; [reflexivity|].
    intros cmd rest ->. reflexivity.
Qed.

End Sysnotify.

(** ** Initialisation *)

Section Init.

Context `{host : Host}.

(** Below macOS 10.10 [MacSystrayInit] returns before either
    [Tcl_CreateCommand]: the command table is the one it was given. *)
Lemma MacSystrayInit_below_minimum (w : World) :
  macOSVersion < 101000 ->
  exists w',
    MacSystrayInit w = (TCL_OK, w') /\
    commands (interp w') = commands (interp w) /\
    result (interp w') =
      result (interp w) +:+
      "Statusitem icons not supported on versions of macOS lower than 10.10" /\
    tk_item w' = Some TkStatusItem_init /\
    notify_item w' = Some TkNotifyItem_init.
Proof.
  intros Hv. unfold MacSystrayInit. apply Z.ltb_lt in Hv. rewrite Hv.
  eexists. split; [reflexivity|]. simpl. repeat split; reflexivity.
Qed.

(** From macOS 10.10 on both commands are registered. *)
Lemma MacSystrayInit_from_minimum (w : World) :
  101000 <= macOSVersion ->
  exists w',
    MacSystrayInit w = (TCL_OK, w') /\
    cmdProc <$> commands (interp w') !! "_systray" = Some MacSystrayCmd_proc /\
    cmdProc <$> commands (interp w') !! "_sysnotify" = Some SysNotifyCmd_proc /\
    result (interp w') = result (interp w).
Proof.
  intros Hv. unfold MacSystrayInit. apply Z.ltb_ge in Hv. rewrite Hv.
  eexists. split; [reflexivity|]. simpl.
  rewrite lookup_insert_ne by discriminate.
  rewrite !lookup_insert_eq. repeat split; reflexivity.
Qed.

(** C1, as the code has it.  Below macOS 10.10, once the status item adapter
    has been constructed, [MacSystrayInit] returns TCL_OK with the warning
    appended to the result, before either [Tcl_CreateCommand]: it registers
    neither [_systray] nor [_sysnotify] and leaves the command table as it
    was, although the notify adapter has been allocated. *)
Theorem MacSystrayInit_below_minimum_registers_neither (w : World) (responds : bool) :
  macOSVersion < 101000 ->
  responds = true ->
  exists w',
    MacSystrayInit_outcome responds w = Returned TCL_OK w' /\
    result (interp w') =
      result (interp w) +:+
      "Statusitem icons not supported on versions of macOS lower than 10.10" /\
    commands (interp w') = commands (interp w) /\
    commands (interp w') !! "_systray" = commands (interp w) !! "_systray" /\
    commands (interp w') !! "_sysnotify" = commands (interp w) !! "_sysnotify" /\
    notify_item w' = Some TkNotifyItem_init.
Proof.
  intros Hv ->. destruct (MacSystrayInit_below_minimum w Hv)
    as (w' & E & Hc & Hr & _ & Hn).
  exists w'. unfold MacSystrayInit_outcome. simpl. rewrite E.
  split; [reflexivity|]. split; [exact Hr|]. split; [exact Hc|].
  rewrite Hc. split; [reflexivity|]. split; [reflexivity|exact Hn].
Qed.

End Init.

(** ** Concrete runs

    The statements above at particular invocations on the [Demo] host, in the
    world [Demo.started] left by [MacSystrayInit] on macOS 10.15. *)

Lemma MacSystrayCmd_needs_subcommand_run :
  MacSystrayCmd Demo.started ["_systray"] = Undefined /\
  exists code w', MacSystrayCmd Demo.started ["_systray"; "destroy"] = Returned code w'.
Proof.
  split.
  - apply (proj1 (MacSystrayCmd_needs_subcommand Demo.started ["_systray"])).
    simpl. lia.
  - apply (proj2 (proj2 (MacSystrayCmd_needs_subcommand
                           Demo.started ["_systray"; "destroy"]))).
    + simpl. lia.
    + discriminate.
Defined.

Lemma modify_unknown_target_is_noop_run :
  MacSystrayCmd Demo.started ["_systray"; "modify"; "colour"; "red"]
  = Returned TCL_OK Demo.started.
Proof.
  apply (modify_unknown_target_is_noop Demo.started
           ["_systray"; "modify"; "colour"; "red"] "modify" "colour");
    try reflexivity; try discriminate.
Defined.

Lemma unresolved_image_changes_nothing_run :
  (exists w',
     MacSystrayCmd Demo.started ["_systray"; "create"; "nosuch"; "tip"; "cb"]
     = Returned TCL_ERROR w' /\
     item_image w' = item_image Demo.started /\
     item_tooltip w' = item_tooltip Demo.started /\
     callbackproc w' = callbackproc Demo.started) /\
  (exists w',
     MacSystrayCmd Demo.started ["_systray"; "modify"; "image"; "nosuch"]
     = Returned TCL_ERROR w' /\
     item_image w' = item_image Demo.started /\
     item_tooltip w' = item_tooltip Demo.started /\
     callbackproc w' = callbackproc Demo.started).
Proof.
  split.
  - eapply (unresolved_image_changes_nothing Demo.started
              ["_systray"; "create"; "nosuch"; "tip"; "cb"] "create" "nosuch").
    + reflexivity.
    + reflexivity.
    + reflexivity.
    + left. split; reflexivity.
  - eapply (unresolved_image_changes_nothing Demo.started
              ["_systray"; "modify"; "image"; "nosuch"] "modify" "nosuch").
    + reflexivity.
    + reflexivity.
    + reflexivity.
    + right. repeat split; reflexivity.
Defined.

Lemma create_bad_tooltip_keeps_new_image_run :
  exists w',
    MacSystrayCmd Demo.started ["_systray"; "create"; "icon"; Demo.bad_text; "cb"]
    = Returned TCL_ERROR w' /\
    item_image w' = Some (Some ("icon", (16, 16)), Some ("icon", (16, 16))) /\
    item_tooltip w' = item_tooltip Demo.started /\
    callbackproc w' = callbackproc Demo.started.
Proof.
  eapply (create_bad_tooltip_keeps_new_image Demo.started
            ["_systray"; "create"; "icon"; Demo.bad_text; "cb"]
            "create" "icon" "" Demo.bad_text {| display := tt |} "icon" 16 16);
    try reflexivity; try discriminate.
Defined.


Lemma zero_area_image_is_skipped_run :
  (exists w',
     MacSystrayCmd Demo.started ["_systray"; "modify"; "image"; "strip"]
     = Returned TCL_OK w' /\
     tk_item w' = tk_item Demo.started /\
     callbackproc w' = callbackproc Demo.started) /\
  (exists code w' text,
     arg ["_systray"; "create"; "blank"; "tip"; "cb"] 3 = Some text /\
     MacSystrayCmd Demo.started ["_systray"; "create"; "blank"; "tip"; "cb"]
     = Returned code w' /\
     item_image w' = item_image Demo.started /\
     (code = TCL_OK <-> stringWithUTF8String (Host := Demo.modern) text <> None)).
Proof.
  split.
  - refine (proj1 (zero_area_image_is_skipped Demo.started
                     ["_systray"; "modify"; "image"; "strip"]
                     "modify" "strip" "" {| display := tt |} "strip" 16 0
                     eq_refl eq_refl eq_refl eq_refl (or_intror eq_refl))
                  eq_refl eq_refl eq_refl).
  - refine (proj2 (zero_area_image_is_skipped Demo.started
                     ["_systray"; "create"; "blank"; "tip"; "cb"]
                     "create" "blank" "" {| display := tt |} "blank" 0 0
                     eq_refl eq_refl eq_refl eq_refl (or_introl eq_refl))
                  eq_refl _ eq_refl).
    vm_compute. discriminate.
Defined.

Lemma callback_argument_is_never_null_run :
  (exists cb,
     arg ["_systray"; "create"; "icon"; "tip"; "cb"] 4 = Some cb /\
     forall w',
       MacSystrayCmd Demo.started ["_systray"; "create"; "icon"; "tip"; "cb"]
       = Returned TCL_OK w' ->
       callbackproc w' = Some cb) /\
  (exists cb,
     arg ["_systray"; "modify"; "callback"; "cb2"] 3 = Some cb /\
     MacSystrayCmd Demo.started ["_systray"; "modify"; "callback"; "cb2"]
     = Returned TCL_OK (with_callbackproc (Some cb) Demo.started)).
Proof.
  split.
  - destruct (proj1 (callback_argument_is_never_null Demo.started
                       ["_systray"; "create"; "icon"; "tip"; "cb"] "create" eq_refl)
                    eq_refl)
      as (cb & E4 & _ & Hok & _).
    + vm_compute. discriminate.
    + exists cb. split; assumption.
  - destruct (proj2 (callback_argument_is_never_null Demo.started
                       ["_systray"; "modify"; "callback"; "cb2"] "modify" eq_refl)
                    eq_refl)
      as (cb & E3 & _ & Hok).
    + vm_compute. discriminate.
    + reflexivity.
    + exists cb. split; assumption.
Defined.

Lemma SysNotifyCmd_converted_title_and_message_run :
  (exists w',
     SysNotifyCmd Demo.started ["_sysnotify"; "Build"; "Completed successfully"]
     = Returned TCL_OK w' /\
     notify_item w' =
       Some (@Build_TkNotifyItem Demo.modern
               (Some (@Build_NSUserNotification Demo.modern
                        (Some "Build") (Some "Completed successfully")
                        (Some NSUserNotificationDefaultSoundName)))
               (Some "Build") (Some "Completed successfully"))) /\
  (exists w' self' n',
     SysNotifyCmd Demo.started ["_sysnotify"; Demo.bad_text; "Completed successfully"]
     = Returned TCL_OK w' /\
     notify_item w' = Some self' /\
     tk_notification self' = Some n' /\
     title n' = None /\ header self' = None) /\
  (exists w',
     SysNotifyCmd Demo.started ["_sysnotify"; "Build"] = Returned TCL_ERROR w' /\
     result (interp w') = "wrong # args,must be:_sysnotify title  message ").
Proof.
  split; [|split].
  - eapply (proj1 (SysNotifyCmd_converted_title_and_message Demo.started)
              "_sysnotify" "Build" "Completed successfully"); reflexivity.
  - destruct (proj1 (proj2 (SysNotifyCmd_converted_title_and_message Demo.started))
                "_sysnotify" Demo.bad_text "Completed successfully" _ _
                eq_refl eq_refl)
      as (w' & self' & n' & E & Hs & Hn & Ht & _).
    exists w', self', n'. split; [exact E|]. split; [exact Hs|]. split; [exact Hn|].
    apply Ht. reflexivity.
  - destruct (proj2 (proj2 (SysNotifyCmd_converted_title_and_message Demo.started))
                ["_sysnotify"; "Build"]) as (w' & hint & E & _ & Hres & Hhint).
    + vm_compute. reflexivity.
    + exists w'. split; [exact E|].
      rewrite Hres, (Hhint "_sysnotify" ["Build"] eq_refl). reflexivity.
Defined.

Lemma MacSystrayInit_below_minimum_registers_neither_run :
  exists w',
    MacSystrayInit_outcome true (Demo.fresh (h := Demo.old) tt) = Returned TCL_OK w' /\
    result (interp w') =
      "Statusitem icons not supported on versions of macOS lower than 10.10" /\
    commands (interp w') !! "_systray" = None /\
    commands (interp w') !! "_sysnotify" = None.
Proof.
  destruct (MacSystrayInit_below_minimum_registers_neither
              (Demo.fresh (h := Demo.old) tt) true)
    as (w' & E & Hr & _ & H1 & H2 & _).
  - vm_compute. reflexivity.
  - reflexivity.
  - exists w'. split; [exact E|]. split; [exact Hr|]. split; assumption.
Defined.

(** C1 as first written fails: on macOS 10.9, in a process with no command
    registered, [MacSystrayInit] returns with the warning and [_sysnotify] is
    not in the command table; and where the status item cannot be constructed
    it does not return at all. *)
Lemma MacSystrayInit_old_has_no_sysnotify :
  (exists w',
     MacSystrayInit_outcome true (Demo.fresh (h := Demo.old) tt) = Returned TCL_OK w' /\
     result (interp w') =
       "Statusitem icons not supported on versions of macOS lower than 10.10" /\
     commands (interp w') !! "_systray" = None /\
     commands (interp w') !! "_sysnotify" = None /\
     is_Some (notify_item w')) /\
  MacSystrayInit_outcome false (Demo.fresh (h := Demo.old) tt) = Undefined.
Proof.
  split; [|reflexivity].
  eexists. split; [reflexivity|]. split; [reflexivity|].
  split; [reflexivity|]. split; [reflexivity|]. eexists. reflexivity.
Qed.

(** C8 as first written fails: with a title that does not convert the
    command still returns TCL_OK and the adapter and its notification hold
    nil, not that title. *)
Lemma SysNotifyCmd_unconvertible_title_is_nil :
  stringWithUTF8String (Host := Demo.modern) Demo.bad_text = None /\
  exists w',
    SysNotifyCmd Demo.started ["_sysnotify"; Demo.bad_text; "Completed successfully"]
    = Returned TCL_OK w' /\
    notify_item w' =
      Some (@Build_TkNotifyItem Demo.modern
              (Some (@Build_NSUserNotification Demo.modern
                       None (Some "Completed successfully")
                       (Some NSUserNotificationDefaultSoundName)))
              None (Some "Completed successfully")).
Proof.
  split; [reflexivity|]. eexists. split; reflexivity.
Qed.

(** C6 as first written fails: [create] with the zero-area image [blank] and
    a tooltip that does not convert returns TCL_ERROR. *)
Lemma create_zero_area_bad_tooltip_errors :
  let argv := ["_systray"; "create"; "blank"; Demo.bad_text; "cb"] in
  subcommand_matches "create" "create" = true /\
  Tk_GetImage (Host := Demo.modern) "" {| display := tt |} "blank" = (Some "blank", "") /\
  Tk_SizeOfImage (Host := Demo.modern) "blank" = (0, 0) /\
  (exists w', MacSystrayCmd Demo.started argv = Returned TCL_ERROR w') /\
  ~ (exists w', MacSystrayCmd Demo.started argv = Returned TCL_OK w').
Proof.
  split; [reflexivity|]. split; [reflexivity|]. split; [reflexivity|].
  split.
  - eexists. reflexivity.
  - intros [w' E]. vm_compute in E. discriminate.
Qed.

(** C9 as first written fails: [create] with five words and an image name
    that does not resolve returns before the callback is stored. *)
Lemma create_unresolved_image_keeps_old_callback :
  let argv := ["_systray"; "create"; "nosuch"; "tip"; "cb"] in
  subcommand_matches "create" "create" = true /\
  5 <= argc_of argv /\
  arg argv 4 = Some "cb" /\
  exists w',
    MacSystrayCmd Demo.started argv = Returned TCL_ERROR w' /\
    callbackproc w' = None /\
    callbackproc w' <> arg argv 4.
Proof.
  split; [reflexivity|]. split; [vm_compute; discriminate|].
  split; [reflexivity|].
  eexists. split; [reflexivity|]. split; [reflexivity|]. discriminate.
Qed.

(** * Further properties of the two commands *)

(** ** The dispatcher *)

(** A word that selects a branch starts with the first letter of its name. *)
Lemma matches_first_letter (name word : string) :
  subcommand_matches name word = true -> deref word = deref name.
Proof.
  unfold subcommand_matches.
  set (len := int_of_size_t _). intros [Hm Hl]%andb_true_iff.
  apply Z.leb_le in Hl. apply Z.eqb_eq in Hm.
  assert (Hlen : len < 2 ^ 32).
  { subst len. unfold int_of_size_t.
    pose proof (Z.mod_pos_bound (Z.of_nat (strlen word) + 2 ^ 31) (2 ^ 32)). lia. }
  unfold size_t_of_int in Hm. rewrite Z.mod_small in Hm by lia.
  destruct (Z.to_nat len) as [|n] eqn:E; [lia|].
  now apply strncmp_head in Hm.
Qed.

(** X1.  No word selects two of [create], [modify] and [destroy]: the order
    in which the dispatcher tries them never decides. *)
Theorem subcommands_mutually_exclusive (word : string) :
  subcommand_matches "create" word && subcommand_matches "modify" word = false /\
  subcommand_matches "create" word && subcommand_matches "destroy" word = false /\
  subcommand_matches "modify" word && subcommand_matches "destroy" word = false.
Proof.
  repeat split; apply andb_false_iff;
    match goal with
    | |- subcommand_matches ?a word = false \/ subcommand_matches ?b word = false =>
        destruct (subcommand_matches a word) eqn:Ea; [right|now left];
        destruct (subcommand_matches b word) eqn:Eb; [exfalso|reflexivity];
        apply matches_first_letter in Ea, Eb; rewrite Ea in Eb; discriminate
    end.
Qed.

Lemma matches_destroy_only (word : string) :
  subcommand_matches "destroy" word = true ->
  subcommand_matches "create" word = false /\ subcommand_matches "modify" word = false.
Proof.
  intros Hd. apply matches_first_letter in Hd.
  split.
  - destruct (subcommand_matches "create" word) eqn:E; [|reflexivity].
    apply matches_first_letter in E. rewrite E in Hd. discriminate.
  - destruct (subcommand_matches "modify" word) eqn:E; [|reflexivity].
    apply matches_first_letter in E. rewrite E in Hd. discriminate.
Qed.

Section Dispatcher.

Context `{host : Host}.

Implicit Types (w : World) (argv : list string).

(** X2.  A subcommand word that abbreviates none of the three names is no
    error: the command returns TCL_OK in the world it was called in, whatever
    the other arguments and their number. *)
Theorem unknown_subcommand_is_noop w argv (sub : string) :
  arg argv 1 = Some sub ->
  cstring sub = true ->
  Z.of_nat (String.length sub) <= INT_MAX ->
  existsb (fun name => abbreviates name sub) ["create"; "modify"; "destroy"] = false ->
  MacSystrayCmd w argv = Returned TCL_OK w.
Proof.
  intros E1 Hs Hlen Hnone. simpl in Hnone. rewrite orb_false_r in Hnone.
  apply orb_false_iff in Hnone as [Hc Hrest].
  apply orb_false_iff in Hrest as [Hm Hd].
  assert (Hno : forall name, abbreviates name sub = false ->
                             subcommand_matches name sub = false).
  { intros name Ha. destruct (subcommand_matches name sub) eqn:E; [|reflexivity].
    apply (subcommand_matches_prefix name sub Hs Hlen) in E as [Hp Hl].
    unfold abbreviates in Ha. rewrite Hp, andb_true_l in Ha.
    apply Nat.leb_gt in Ha. lia. }
  unfold MacSystrayCmd, MacSystrayCmd_body.
  now rewrite E1, (Hno _ Hc), (Hno _ Hm), (Hno _ Hd).
Qed.

(** X3.  [destroy] checks no argument count and raises no error: it does
    what the delete procedure [MacSystrayDestroy] does, taking the status
    item out of the status bar and keeping its image, its tooltip, the stored
    callback and the interpreter's result. *)
Theorem destroy_only_leaves_the_status_bar w argv (sub : string) :
  arg argv 1 = Some sub ->
  subcommand_matches "destroy" sub = true ->
  exists w',
    MacSystrayCmd w argv = Returned TCL_OK w' /\
    w' = MacSystrayDestroy w /\
    item_image w' = item_image w /\
    item_tooltip w' = item_tooltip w /\
    callbackproc w' = callbackproc w /\
    result (interp w') = result (interp w) /\
    (is_Some (tk_item w) -> item_removed w' = true).
Proof.
  intros E1 Hd. destruct (matches_destroy_only _ Hd) as [Hc Hm].
  unfold MacSystrayCmd, MacSystrayCmd_body. rewrite E1, Hc, Hm, Hd.
  eexists. split; [reflexivity|].
  unfold item_image, item_tooltip, item_removed. simpl.
  destruct (tk_item w); simpl; repeat split; try reflexivity.
  intros [? [=]].
Qed.

End Dispatcher.

(** ** What the tray command keeps *)

(** Case analysis on every test the hypothesis [H] still contains. *)
Ltac split_cases H :=
  repeat match type of H with
         | context [match ?x with _ => _ end] =>
             lazymatch x with
             | context [match _ with _ => _ end] => fail
             | _ => destruct x eqn:?; simpl in H; try discriminate H
             end
         end.

(** Comparisons of two string literals in the goal are evaluated. *)
Ltac compare_literals :=
  repeat match goal with
  | |- context [strcmp ?a ?b =? 0] =>
      let v := eval vm_compute in (strcmp a b =? 0) in
      change (strcmp a b =? 0) with v
  end.

Section Tray.

Context `{host : Host}.

Implicit Types (w : World) (argv : list string).

Lemma tray_keeps_refl w : tray_keeps w w.
Proof. unfold tray_keeps. tauto. Qed.

Lemma tray_keeps_trans w1 w2 w3 :
  tray_keeps w1 w2 -> tray_keeps w2 w3 -> tray_keeps w1 w3.
Proof.
  unfold tray_keeps. intros (A1 & A2 & A3 & A4 & A5 & A6) (B1 & B2 & B3 & B4 & B5 & B6).
  repeat split; try congruence; tauto.
Qed.

Lemma tray_keeps_result w (res : string) :
  tray_keeps w (with_interp {| result := res; commands := commands (interp w);
                               mainWindow := mainWindow (interp w) |} w).
Proof. unfold tray_keeps. simpl. tauto. Qed.

Lemma tray_keeps_handles w (n : nat) : tray_keeps w (with_image_handles n w).
Proof. unfold tray_keeps. simpl. tauto. Qed.

Lemma tray_keeps_callback w (c : option string) : tray_keeps w (with_callbackproc c w).
Proof. unfold tray_keeps. simpl. tauto. Qed.

(** The three messages the command sends leave the bar membership alone or
    clear it. *)
Lemma tray_keeps_send w (m : TkStatusItem -> TkStatusItem) :
  (forall self, in_statusBar self = false -> in_statusBar (m self) = false) ->
  tray_keeps w (send_tk_item m w).
Proof.
  intros Hm. unfold tray_keeps, item_removed. simpl.
  destruct (tk_item w) as [self|]; simpl; repeat split; auto.
  intros Hr. apply negb_true_iff in Hr. now rewrite (Hm self Hr).
Qed.

Lemma step_keeps_fail w w1 (args : list (option string)) :
  tray_keeps w w1 -> step_keeps w (fail args w1).
Proof.
  intros H. simpl. eapply tray_keeps_trans; [exact H|].
  unfold Tcl_AppendResult. apply tray_keeps_result.
Qed.

Lemma step_keeps_bind w (s : Step) (k : World -> Step) :
  step_keeps w s ->
  (forall w1, tray_keeps w w1 -> step_keeps w (k w1)) ->
  step_keeps w (bind s k).
Proof. destruct s; simpl; auto. Qed.

Lemma step_keeps_set_icon w w1 (image : option NSImage) :
  tray_keeps w w1 -> tray_keeps w (send_tk_item (setImagewithImage image) w1).
Proof.
  intros H. eapply tray_keeps_trans; [exact H|]. now apply tray_keeps_send.
Qed.

Lemma step_keeps_create_icon w w1 argv :
  tray_keeps w w1 -> step_keeps w (create_icon argv w1).
Proof.
  intros H. unfold create_icon.
  destruct (Tk_MainWindow w1); [|exact I].
  destruct (arg argv 2); [|exact I].
  destruct (Tk_GetImage _ _ _) as [[tk_image|] res].
  - destruct (Tk_SizeOfImage tk_image) as [width height].
    assert (H1 := tray_keeps_trans _ _ _ H (tray_keeps_result w1 res)).
    assert (H2 := tray_keeps_trans _ _ _ H1 (tray_keeps_handles _ (S (image_handles w1)))).
    destruct (negb (width =? 0) && negb (height =? 0)); simpl; [|exact H2].
    eapply tray_keeps_trans; [|apply tray_keeps_handles].
    now apply step_keeps_set_icon.
  - apply step_keeps_fail.
    exact (tray_keeps_trans _ _ _ H (tray_keeps_result w1 res)).
Qed.

Lemma step_keeps_tooltip w w1 (text : option string) :
  tray_keeps w w1 ->
  step_keeps w
    match text with
    | None => Crash
    | Some text =>
        match stringWithUTF8String text with
        | None => fail [Some " unable to set tooltip for systray icon"] w1
        | Some tooltip => Continue (send_tk_item (setTextwithString (Some tooltip)) w1)
        end
    end.
Proof.
  intros H. destruct text as [text|]; [|exact I].
  destruct (stringWithUTF8String text).
  - simpl. eapply tray_keeps_trans; [exact H|]. now apply tray_keeps_send.
  - now apply step_keeps_fail.
Qed.

Lemma step_keeps_callback w w1 (p : option string) :
  tray_keeps w w1 ->
  step_keeps w
    (let w2 := with_callbackproc p w1 in
     match callbackproc w2 with
     | None => fail [Some " unable to get the callback for systray icon"] w2
     | Some _ => Continue w2
     end).
Proof.
  intros H. assert (H2 := tray_keeps_trans _ _ _ H (tray_keeps_callback w1 p)).
  simpl. destruct p; [exact H2|]. now apply step_keeps_fail.
Qed.

Lemma step_keeps_modify_icon w w1 (modifyitem : string) argv :
  tray_keeps w w1 -> step_keeps w (modify_icon modifyitem argv w1).
Proof.
  intros H. unfold modify_icon.
  destruct (strcmp modifyitem "image" =? 0); [|exact H].
  destruct (Tk_MainWindow w1); [|exact I].
  destruct (arg argv 3); [|exact I].
  destruct (Tk_GetImage _ _ _) as [[tk_image|] res].
  - destruct (Tk_SizeOfImage tk_image) as [width height].
    assert (H1 := tray_keeps_trans _ _ _ H (tray_keeps_result w1 res)).
    assert (H2 := tray_keeps_trans _ _ _ H1 (tray_keeps_handles _ (S (image_handles w1)))).
    simpl. eapply tray_keeps_trans; [|apply tray_keeps_handles].
    destruct (negb (width =? 0) && negb (height =? 0)); [|exact H2].
    now apply step_keeps_set_icon.
  - apply step_keeps_fail.
    exact (tray_keeps_trans _ _ _ H (tray_keeps_result w1 res)).
Qed.

Lemma step_keeps_body w (sub : string) argv :
  step_keeps w (MacSystrayCmd_body sub argv w).
Proof.
  unfold MacSystrayCmd_body.
  destruct (subcommand_matches "create" sub).
  { destruct (argc_of argv <? 5); [apply step_keeps_fail, tray_keeps_refl|].
    apply step_keeps_bind; [apply step_keeps_create_icon, tray_keeps_refl|].
    intros w1 H1. apply step_keeps_bind; [now apply step_keeps_tooltip|].
    intros w2 H2. now apply step_keeps_callback. }
  destruct (subcommand_matches "modify" sub).
  { destruct (argc_of argv <? 4); [apply step_keeps_fail, tray_keeps_refl|].
    destruct (arg argv 2) as [modifyitem|]; [|exact I].
    apply step_keeps_bind; [apply step_keeps_modify_icon, tray_keeps_refl|].
    intros w1 H1. apply step_keeps_bind.
    - unfold modify_tooltip. destruct (strcmp modifyitem "text" =? 0); [|exact H1].
      now apply step_keeps_tooltip.
    - intros w2 H2. unfold modify_callback.
      destruct (strcmp modifyitem "callback" =? 0); [|exact H2].
      now apply step_keeps_callback. }
  destruct (subcommand_matches "destroy" sub); [|apply tray_keeps_refl].
  simpl. now apply tray_keeps_send.
Qed.

Lemma MacSystrayCmd_keeps w argv (code : TclCode) w' :
  MacSystrayCmd w argv = Returned code w' -> tray_keeps w w'.
Proof.
  unfold MacSystrayCmd. destruct (arg argv 1) as [sub|]; [|discriminate].
  pose proof (step_keeps_body w sub argv) as H.
  destruct (MacSystrayCmd_body sub argv w); simpl in H; [| |discriminate];
    now intros [= <- <-].
Qed.

(** X4.  Once the status item has left the status bar no tray invocation
    puts it back: [create] and [modify] after [destroy] configure an item
    that is no longer shown. *)
Theorem removed_item_stays_removed w argv (code : TclCode) w' :
  item_removed w = true ->
  MacSystrayCmd w argv = Returned code w' ->
  item_removed w' = true.
Proof.
  intros Hr H. now apply (MacSystrayCmd_keeps _ _ _ _ H).
Qed.

(** X5.  No tray invocation touches the notification adapter, the
    notification center, the command table or the main window, and none
    releases the status item adapter. *)
Theorem tray_command_frame w argv (code : TclCode) w' :
  MacSystrayCmd w argv = Returned code w' ->
  notify_item w' = notify_item w /\
  center w' = center w /\
  commands (interp w') = commands (interp w) /\
  mainWindow (interp w') = mainWindow (interp w) /\
  (is_Some (tk_item w') <-> is_Some (tk_item w)).
Proof.
  intros H. destruct (MacSystrayCmd_keeps _ _ _ _ H) as (A1 & A2 & A3 & A4 & A5 & _).
  exact (conj A1 (conj A2 (conj A3 (conj A4 A5)))).
Qed.

Lemma strcmp_first_letter (a b : string) : strcmp a b = 0 -> deref a = deref b.
Proof.
  destruct a as [|c r]; simpl.
  - intros E. apply uchar_inj. lia.
  - destruct (Ascii.eqb c (deref b)) eqn:E; simpl.
    + intros _. now apply Ascii.eqb_eq.
    + intros D. exfalso. revert D. now apply uchar_diff.
Qed.

(** X6.  A [modify] that returns TCL_ERROR has changed nothing but the
    interpreter's result: no field is set before the failing check. *)
Theorem modify_error_changes_only_the_result w argv (sub : string) w' :
  arg argv 1 = Some sub ->
  subcommand_matches "modify" sub = true ->
  MacSystrayCmd w argv = Returned TCL_ERROR w' ->
  w' = with_interp {| result := result (interp w');
                      commands := commands (interp w);
                      mainWindow := mainWindow (interp w) |} w.
Proof.
  intros E1 Hm H. unfold MacSystrayCmd, MacSystrayCmd_body in H.
  rewrite E1, (matches_modify_not_create _ Hm), Hm in H.
  destruct (argc_of argv <? 4) eqn:Hc.
  { simpl in H. simplify_eq. destruct w. reflexivity. }
  apply Z.ltb_ge in Hc.
  destruct (argc_arg argv 3) as [a3 E3]; [lia|].
  destruct (arg argv 2) as [modifyitem|]; [|discriminate].
  unfold modify_icon, modify_tooltip, modify_callback in H. rewrite E3 in H.
  destruct (strcmp modifyitem "image" =? 0) eqn:Ei;
    destruct (strcmp modifyitem "text" =? 0) eqn:Et;
    destruct (strcmp modifyitem "callback" =? 0) eqn:Eb;
    try apply Z.eqb_eq in Ei; try apply Z.eqb_eq in Et; try apply Z.eqb_eq in Eb;
    try apply strcmp_first_letter in Ei; try apply strcmp_first_letter in Et;
    try apply strcmp_first_letter in Eb;
    try (rewrite Ei in Et; discriminate Et);
    try (rewrite Ei in Eb; discriminate Eb);
    try (rewrite Et in Eb; discriminate Eb);
    unfold fail, bind in H; simpl in H; split_cases H; try discriminate H;
    simplify_eq; destruct w; reflexivity.
Qed.

(** X7.  A [create] whose image resolves with a non-zero area and whose
    tooltip converts returns TCL_OK with the image, the tooltip and the
    callback of its arguments on the status item, and has released the image
    handle it obtained. *)
Theorem create_sets_all_three w argv (sub name res text : string)
    (winPtr : TkWindow Display) (tk_image : Tk_Image) (width height : Z)
    (self : TkStatusItem) (t : NSString) :
  arg argv 1 = Some sub ->
  subcommand_matches "create" sub = true ->
  5 <= argc_of argv ->
  tk_item w = Some self ->
  Tk_MainWindow w = Some winPtr ->
  arg argv 2 = Some name ->
  Tk_GetImage (result (interp w)) winPtr name = (Some tk_image, res) ->
  Tk_SizeOfImage tk_image = (width, height) ->
  width <> 0 -> height <> 0 ->
  arg argv 3 = Some text ->
  stringWithUTF8String text = Some t ->
  exists w' cb,
    arg argv 4 = Some cb /\
    MacSystrayCmd w argv = Returned TCL_OK w' /\
    (let new := TkMacOSXGetNSImageFromTkImage (display winPtr) tk_image width height in
     item_image w' = Some (new, new)) /\
    item_tooltip w' = Some (Some t, Some t) /\
    callbackproc w' = Some cb /\
    image_handles w' = image_handles w /\
    result (interp w') = res.
Proof.
  intros E1 Hm Hc Hself Ewin E2 Eimg Esize Hw Hh E3 Etext.
  destruct (argc_arg argv 4) as [cb E4]; [lia|].
  unfold MacSystrayCmd, MacSystrayCmd_body. rewrite E1, Hm.
  apply Z.ltb_ge in Hc. rewrite Hc.
  unfold create_icon. rewrite Ewin, E2, Eimg, Esize.
  apply Z.eqb_neq in Hw, Hh. rewrite Hw, Hh. simpl.
  unfold create_tooltip. rewrite E3, Etext. simpl.
  rewrite (create_callback_present _ _ cb E4).
  eexists. exists cb. split; [exact E4|]. split; [reflexivity|].
  unfold item_image, item_tooltip. simpl. rewrite Hself. simpl.
  repeat split; reflexivity.
Qed.

(** X8.  [modify] always gives back the image handle it obtained, whatever
    it returns: the count of handles held is the one of before the call. *)
Theorem modify_releases_its_image w argv (sub : string) (code : TclCode) w' :
  arg argv 1 = Some sub ->
  subcommand_matches "modify" sub = true ->
  MacSystrayCmd w argv = Returned code w' ->
  image_handles w' = image_handles w.
Proof.
  intros E1 Hm H. unfold MacSystrayCmd, MacSystrayCmd_body in H.
  rewrite E1, (matches_modify_not_create _ Hm), Hm in H.
  unfold modify_icon, modify_tooltip, modify_callback, fail, bind in H.
  split_cases H; simpl in H; injection H as <- <-; reflexivity.
Qed.

(** X9.  [create] frees the image handle only inside the non-zero-area test:
    with a zero-area image it returns, with whatever code, holding one handle
    more than before; with a non-zero area the count is unchanged. *)
Theorem create_keeps_handle_of_zero_area_image w argv (sub name res : string)
    (winPtr : TkWindow Display) (tk_image : Tk_Image) (width height : Z)
    (code : TclCode) w' :
  arg argv 1 = Some sub ->
  subcommand_matches "create" sub = true ->
  5 <= argc_of argv ->
  Tk_MainWindow w = Some winPtr ->
  arg argv 2 = Some name ->
  Tk_GetImage (result (interp w)) winPtr name = (Some tk_image, res) ->
  Tk_SizeOfImage tk_image = (width, height) ->
  MacSystrayCmd w argv = Returned code w' ->
  image_handles w' =
    if (width =? 0) || (height =? 0) then S (image_handles w) else image_handles w.
Proof.
  intros E1 Hm Hc Ewin E2 Eimg Esize H.
  unfold MacSystrayCmd, MacSystrayCmd_body in H. rewrite E1, Hm in H.
  apply Z.ltb_ge in Hc. rewrite Hc in H.
  unfold create_icon in H. rewrite Ewin, E2, Eimg, Esize in H.
  rewrite <- negb_orb in H.
  unfold create_tooltip, create_callback, fail, bind in H.
  destruct ((width =? 0) || (height =? 0)); simpl in H;
    split_cases H; simpl in H; injection H as <- <-; reflexivity.
Qed.

End Tray.

(** ** The notification command, further *)

Section Notify.

Context `{host : Host}.

Implicit Types (w : World) (argv : list string).

(** The notification a post leaves on the adapter and hands to the center. *)
Lemma SysNotifyCmd_live w (cmd ttl message : string) (rest : list string)
    (self : TkNotifyItem) (n : NSUserNotification) :
  notify_item w = Some self ->
  tk_notification self = Some n ->
  let n' := {| title := stringWithUTF8String ttl;
               informativeText := stringWithUTF8String message;
               soundName := Some NSUserNotificationDefaultSoundName |} in
  SysNotifyCmd w (cmd :: ttl :: message :: rest) =
  Returned TCL_OK
    (with_center {| delegate_is_notify_item := true;
                    delivered := delivered (center w) ++ [n'] |}
       (with_notify_item
          (Some {| tk_notification := Some n';
                   header := stringWithUTF8String ttl;
                   info := stringWithUTF8String message |}) w)).
Proof.
  intros Hself Hn. unfold SysNotifyCmd.
  assert (Hc : (argc_of (cmd :: ttl :: message :: rest) <? 3) = false).
  { apply Z.ltb_ge. unfold argc_of. simpl length. lia. }
  rewrite Hc. simpl. rewrite Hself. unfold postNotificationWithTitle.
  rewrite Hn. reflexivity.
Qed.

(** X10.  [SysNotifyCmd] has a defined outcome on every argument vector, and
    its code depends on the number of words alone: TCL_ERROR below three,
    TCL_OK from three on, whether or not title and message convert. *)
Theorem SysNotifyCmd_always_returns w argv :
  exists w',
    SysNotifyCmd w argv =
    Returned (if argc_of argv <? 3 then TCL_ERROR else TCL_OK) w'.
Proof.
  unfold SysNotifyCmd. destruct (argc_of argv <? 3) eqn:Hc; [eauto|].
  apply Z.ltb_ge in Hc.
  destruct (argc_arg argv 1) as [a1 ->]; [lia|].
  destruct (argc_arg argv 2) as [a2 ->]; [lia|].
  destruct (notify_item w) as [self|]; [|eauto].
  destruct (postNotificationWithTitle _ _ self (center w)). eauto.
Qed.

(** X11.  Words after the message are ignored: the outcome is that of the
    first three words. *)
Theorem SysNotifyCmd_ignores_extra_words w (cmd ttl message : string)
    (rest : list string) :
  SysNotifyCmd w (cmd :: ttl :: message :: rest) = SysNotifyCmd w [cmd; ttl; message].
Proof.
  unfold SysNotifyCmd.
  assert (Hc : forall l, (argc_of (cmd :: ttl :: message :: l) <? 3) = false).
  { intros l. apply Z.ltb_ge. unfold argc_of. simpl length. lia. }
  now rewrite !Hc.
Qed.

Lemma SysNotifyCmd_keeps w argv (code : TclCode) w' :
  SysNotifyCmd w argv = Returned code w' ->
  tk_item w' = tk_item w /\
  callbackproc w' = callbackproc w /\
  image_handles w' = image_handles w /\
  commands (interp w') = commands (interp w) /\
  mainWindow (interp w') = mainWindow (interp w) /\
  (code = TCL_OK -> result (interp w') = result (interp w)) /\
  (adapters_live w = true -> adapters_live w' = true).
Proof.
  unfold SysNotifyCmd, adapters_live.
  destruct (argc_of argv <? 3).
  { intros [= <- <-]. simpl. repeat split; auto. discriminate. }
  destruct (arg argv 1) as [a1|]; [|discriminate].
  destruct (arg argv 2) as [a2|]; [|discriminate].
  destruct (notify_item w) as [self|] eqn:Hself.
  - unfold postNotificationWithTitle. intros [= <- <-]. simpl.
    repeat split; auto.
    destruct (tk_item w); [|discriminate].
    destruct (tk_notification self); [reflexivity|discriminate].
  - intros [= <- <-]. rewrite Hself. repeat split; auto.
Qed.

(** X12.  The notification command never touches the status item, the stored
    callback, the image handles, the command table or the main window, and a
    successful post leaves the interpreter's result as it was. *)
Theorem SysNotifyCmd_frame w argv (code : TclCode) w' :
  SysNotifyCmd w argv = Returned code w' ->
  tk_item w' = tk_item w /\
  callbackproc w' = callbackproc w /\
  image_handles w' = image_handles w /\
  commands (interp w') = commands (interp w) /\
  mainWindow (interp w') = mainWindow (interp w) /\
  (code = TCL_OK -> result (interp w') = result (interp w)).
Proof.
  intros H. destruct (SysNotifyCmd_keeps _ _ _ _ H) as (A & B & C & D & E & F & _).
  exact (conj A (conj B (conj C (conj D (conj E F))))).
Qed.

(** X13.  A post on a live adapter installs the adapter as the center's
    delegate and hands the center exactly one notification, after those
    delivered before: the converted title and message with the default
    sound. *)
Theorem SysNotifyCmd_delivers_once w (cmd ttl message : string)
    (self : TkNotifyItem) (n : NSUserNotification) :
  notify_item w = Some self ->
  tk_notification self = Some n ->
  exists w',
    SysNotifyCmd w [cmd; ttl; message] = Returned TCL_OK w' /\
    delegate_is_notify_item (center w') = true /\
    delivered (center w') =
      (delivered (center w) ++
       [{| title := stringWithUTF8String ttl;
           informativeText := stringWithUTF8String message;
           soundName := Some NSUserNotificationDefaultSoundName |}])%list.
Proof.
  intros Hself Hn. eexists.
  split; [exact (SysNotifyCmd_live w cmd ttl message [] self n Hself Hn)|].
  split; reflexivity.
Qed.

(** X14.  The adapter has one notification, reused by every post: after two
    posts it holds the title and message of the second only, while the center
    has been handed both, in order. *)
Theorem second_post_overwrites_first w (cmd t1 m1 t2 m2 : string)
    (self : TkNotifyItem) (n : NSUserNotification) :
  notify_item w = Some self ->
  tk_notification self = Some n ->
  exists w1 w2,
    SysNotifyCmd w [cmd; t1; m1] = Returned TCL_OK w1 /\
    SysNotifyCmd w1 [cmd; t2; m2] = Returned TCL_OK w2 /\
    notify_item w2 =
      Some {| tk_notification :=
                Some {| title := stringWithUTF8String t2;
                        informativeText := stringWithUTF8String m2;
                        soundName := Some NSUserNotificationDefaultSoundName |};
              header := stringWithUTF8String t2;
              info := stringWithUTF8String m2 |} /\
    delivered (center w2) =
      (delivered (center w) ++
       [{| title := stringWithUTF8String t1;
           informativeText := stringWithUTF8String m1;
           soundName := Some NSUserNotificationDefaultSoundName |};
        {| title := stringWithUTF8String t2;
           informativeText := stringWithUTF8String m2;
           soundName := Some NSUserNotificationDefaultSoundName |}])%list.
Proof.
  intros Hself Hn. eexists. eexists.
  split; [exact (SysNotifyCmd_live w cmd t1 m1 [] self n Hself Hn)|].
  split; [eapply SysNotifyCmd_live; reflexivity|].
  split; [reflexivity|]. simpl. now rewrite <- app_assoc.
Qed.

(** X15.  After [SysNotifyDeleteCmd] the adapter has no notification, and a
    later post does not give it one back: the command still returns TCL_OK
    and records title and message on the adapter, with no notification to
    carry them. *)
Theorem post_after_delete_has_no_notification w (cmd ttl message : string)
    (self : TkNotifyItem) :
  notify_item w = Some self ->
  exists w',
    SysNotifyCmd (SysNotifyDeleteCmd w) [cmd; ttl; message] = Returned TCL_OK w' /\
    notify_item w' =
      Some {| tk_notification := None;
              header := stringWithUTF8String ttl;
              info := stringWithUTF8String message |}.
Proof.
  intros Hself. unfold SysNotifyCmd, SysNotifyDeleteCmd. simpl.
  rewrite Hself. simpl. eexists. split; reflexivity.
Qed.

End Notify.

(** ** Initialisation, clicks and sequences of invocations *)

Section Lifecycle.

Context `{host : Host}.

Implicit Types (w : World) (argv : list string).


(** X17.  A first initialisation, with no [_systray] and no [_sysnotify]
    registered yet (or below macOS 10.10, where none gets registered), whose
    status item can be constructed, returns TCL_OK and replaces both adapters
    by new ones: a status item in the status bar with no image and no
    tooltip, and a notify adapter with an empty notification.  The stored
    callback and the notification center are not reset. *)
Theorem MacSystrayInit_renews_adapters w :
  macOSVersion < 101000 \/
  (commands (interp w) !! "_systray" = None /\
   commands (interp w) !! "_sysnotify" = None) ->
  exists w',
    MacSystrayInit_outcome true w = Returned TCL_OK w' /\
    tk_item w' = Some TkStatusItem_init /\
    notify_item w' = Some TkNotifyItem_init /\
    item_image w' = Some (None, None) /\
    item_tooltip w' = Some (None, None) /\
    item_removed w' = false /\
    adapters_live w' = true /\
    callbackproc w' = callbackproc w /\
    center w' = center w.
Proof.
  intros _. unfold MacSystrayInit_outcome, MacSystrayInit. simpl.
  destruct (macOSVersion <? 101000);
    eexists; (split; [reflexivity|]); repeat split; reflexivity.
Qed.

(** X19.  A tray invocation that returns TCL_ERROR never changes the stored
    callback: the next click does what it would have done before. *)
Theorem failed_invocation_keeps_click w argv w' (clickCount : Z)
    (info : option TkMainInfo) :
  MacSystrayCmd w argv = Returned TCL_ERROR w' ->
  callbackproc w' = callbackproc w /\
  clickOnStatusItem clickCount info w' = clickOnStatusItem clickCount info w.
Proof.
  intros H.
  assert (Hcb : callbackproc w' = callbackproc w).
  { unfold MacSystrayCmd, MacSystrayCmd_body in H.
    destruct (arg argv 1) as [sub|]; [|discriminate].
    destruct (subcommand_matches "create" sub).
    { destruct (argc_of argv <? 5) eqn:Hc; [simpl in H; now simplify_eq|].
      apply Z.ltb_ge in Hc.
      destruct (argc_arg argv 4) as [cb E4]; [lia|].
      unfold create_icon, create_tooltip, create_callback, fail, bind in H.
      rewrite E4 in H. split_cases H; simplify_eq; reflexivity. }
    destruct (subcommand_matches "modify" sub).
    { destruct (argc_of argv <? 4) eqn:Hc; [simpl in H; now simplify_eq|].
      apply Z.ltb_ge in Hc.
      destruct (argc_arg argv 3) as [a3 E3]; [lia|].
      unfold modify_icon, modify_tooltip, modify_callback, fail, bind in H.
      rewrite E3 in H. split_cases H; simplify_eq; reflexivity. }
    destruct (subcommand_matches "destroy" sub); discriminate. }
  split; [exact Hcb|]. unfold clickOnStatusItem. now rewrite Hcb.
Qed.

Lemma call_keeps (c : Call) w (code : TclCode) w' :
  call c w = Returned code w' ->
  commands (interp w') = commands (interp w) /\
  (adapters_live w = true -> adapters_live w' = true) /\
  (item_removed w = true -> item_removed w' = true).
Proof.
  destruct c as [argv|argv]; simpl; intros H.
  - destruct (MacSystrayCmd_keeps _ _ _ _ H) as (A1 & _ & A3 & _ & A5 & A6).
    split; [exact A3|]. split; [|exact A6].
    unfold adapters_live. rewrite A1.
    destruct (tk_item w) as [self|]; [|discriminate].
    destruct (proj2 A5) as [self' ->]; [eauto|]. auto.
  - destruct (SysNotifyCmd_keeps _ _ _ _ H) as (A1 & _ & _ & A4 & _ & _ & A7).
    split; [exact A4|]. split; [exact A7|].
    unfold item_removed. now rewrite A1.
Qed.

(** X20.  Through any sequence of tray and notification invocations, in any
    order and with any arguments, the command table stays the same, live
    adapters stay live, and a status item taken out of the status bar stays
    out. *)
Theorem calls_keep_adapters_and_commands (cs : list Call) w w' :
  calls cs w = Some w' ->
  commands (interp w') = commands (interp w) /\
  (adapters_live w = true -> adapters_live w' = true) /\
  (item_removed w = true -> item_removed w' = true).
Proof.
  revert w. induction cs as [|c cs IH]; intros w; simpl.
  - intros [= <-]. auto.
  - destruct (call c w) as [code w1|] eqn:E; [|discriminate].
    intros H. destruct (call_keeps _ _ _ _ E) as (A1 & A2 & A3).
    destruct (IH _ H) as (B1 & B2 & B3).
    split; [congruence|]. split; auto.
Qed.

End Lifecycle.

(** ** Concrete runs of the further properties *)

Lemma unknown_subcommand_is_noop_run :
  MacSystrayCmd Demo.started ["_systray"; "created"; "icon"; "tip"; "cb"]
  = Returned TCL_OK Demo.started.
Proof.
  apply (unknown_subcommand_is_noop Demo.started
           ["_systray"; "created"; "icon"; "tip"; "cb"] "created");
    try reflexivity; try (vm_compute; discriminate).
Defined.

Lemma destroy_only_leaves_the_status_bar_run :
  exists w',
    MacSystrayCmd Demo.started ["_systray"; "de"] = Returned TCL_OK w' /\
    w' = MacSystrayDestroy Demo.started /\
    item_image w' = item_image Demo.started /\
    item_tooltip w' = item_tooltip Demo.started /\
    callbackproc w' = callbackproc Demo.started /\
    result (interp w') = result (interp Demo.started) /\
    (is_Some (tk_item Demo.started) -> item_removed w' = true).
Proof.
  apply (destroy_only_leaves_the_status_bar Demo.started ["_systray"; "de"] "de");
    reflexivity.
Defined.

Lemma removed_item_stays_removed_run :
  exists w',
    MacSystrayCmd (MacSystrayDestroy Demo.started)
      ["_systray"; "create"; "icon"; "tip"; "cb"] = Returned TCL_OK w' /\
    item_removed w' = true.
Proof.
  eexists. split; [reflexivity|].
  eapply (removed_item_stays_removed (MacSystrayDestroy Demo.started)
            ["_systray"; "create"; "icon"; "tip"; "cb"]);
    reflexivity.
Defined.

Lemma tray_command_frame_run :
  exists w',
    MacSystrayCmd Demo.started ["_systray"; "create"; "icon"; "tip"; "cb"]
    = Returned TCL_OK w' /\
    notify_item w' = notify_item Demo.started /\
    commands (interp w') = commands (interp Demo.started).
Proof.
  eexists. split; [reflexivity|].
  destruct (tray_command_frame Demo.started
              ["_systray"; "create"; "icon"; "tip"; "cb"] TCL_OK _ eq_refl)
    as (Hn & _ & Hc & _).
  split; assumption.
Defined.

Lemma modify_error_changes_only_the_result_run :
  exists w',
    MacSystrayCmd Demo.started ["_systray"; "modify"; "text"; Demo.bad_text]
    = Returned TCL_ERROR w' /\
    w' = with_interp {| result := result (interp w');
                        commands := commands (interp Demo.started);
                        mainWindow := mainWindow (interp Demo.started) |}
           Demo.started.
Proof.
  eexists. split; [reflexivity|].
  apply (modify_error_changes_only_the_result Demo.started
           ["_systray"; "modify"; "text"; Demo.bad_text] "modify");
    reflexivity.
Defined.

Lemma create_sets_all_three_run :
  exists w' cb,
    arg ["_systray"; "create"; "icon"; "tip"; "cb"] 4 = Some cb /\
    MacSystrayCmd Demo.started ["_systray"; "create"; "icon"; "tip"; "cb"]
    = Returned TCL_OK w' /\
    item_image w' = Some (Some ("icon", (16, 16)), Some ("icon", (16, 16))) /\
    item_tooltip w' = Some (Some "tip", Some "tip") /\
    callbackproc w' = Some cb /\
    image_handles w' = image_handles Demo.started /\
    result (interp w') = "".
Proof.
  eapply (create_sets_all_three Demo.started
            ["_systray"; "create"; "icon"; "tip"; "cb"]
            "create" "icon" "" "tip" {| display := tt |} "icon" 16 16);
    try reflexivity; try discriminate.
Defined.

Lemma modify_releases_its_image_run :
  exists w',
    MacSystrayCmd Demo.started ["_systray"; "modify"; "image"; "strip"]
    = Returned TCL_OK w' /\
    image_handles w' = image_handles Demo.started.
Proof.
  eexists. split; [reflexivity|].
  apply (modify_releases_its_image Demo.started
           ["_systray"; "modify"; "image"; "strip"] "modify" TCL_OK);
    reflexivity.
Defined.

Lemma create_keeps_handle_of_zero_area_image_run :
  exists w',
    MacSystrayCmd Demo.started ["_systray"; "create"; "blank"; "tip"; "cb"]
    = Returned TCL_OK w' /\
    image_handles w' = S (image_handles Demo.started).
Proof.
  eexists. split; [reflexivity|].
  apply (create_keeps_handle_of_zero_area_image Demo.started
           ["_systray"; "create"; "blank"; "tip"; "cb"]
           "create" "blank" "" {| display := tt |} "blank" 0 0 TCL_OK);
    try reflexivity; try (vm_compute; discriminate).
Defined.

Lemma SysNotifyCmd_frame_run :
  exists w',
    SysNotifyCmd Demo.started ["_sysnotify"; "Build"; "Done"] = Returned TCL_OK w' /\
    tk_item w' = tk_item Demo.started /\
    callbackproc w' = callbackproc Demo.started.
Proof.
  eexists. split; [reflexivity|].
  destruct (SysNotifyCmd_frame Demo.started ["_sysnotify"; "Build"; "Done"]
              TCL_OK _ eq_refl) as (Ht & Hc & _).
  split; assumption.
Defined.

Lemma SysNotifyCmd_delivers_once_run :
  exists w',
    SysNotifyCmd Demo.started ["_sysnotify"; "Build"; "Done"] = Returned TCL_OK w' /\
    delegate_is_notify_item (center w') = true /\
    length (delivered (center w')) = 1%nat.
Proof.
  destruct (SysNotifyCmd_delivers_once Demo.started "_sysnotify" "Build" "Done"
              _ _ eq_refl eq_refl) as (w' & E & Hd & Hl).
  exists w'. split; [exact E|]. split; [exact Hd|]. now rewrite Hl.
Defined.

Lemma second_post_overwrites_first_run :
  exists w1 w2,
    SysNotifyCmd Demo.started ["_sysnotify"; "Build"; "Started"] = Returned TCL_OK w1 /\
    SysNotifyCmd w1 ["_sysnotify"; "Build"; "Done"] = Returned TCL_OK w2 /\
    info <$> notify_item w2 = Some (stringWithUTF8String (Host := Demo.modern) "Done") /\
    length (delivered (center w2)) = 2%nat.
Proof.
  destruct (second_post_overwrites_first Demo.started
              "_sysnotify" "Build" "Started" "Build" "Done" _ _ eq_refl eq_refl)
    as (w1 & w2 & E1 & E2 & Hn & Hd).
  exists w1, w2. split; [exact E1|]. split; [exact E2|].
  rewrite Hn, Hd. split; reflexivity.
Defined.

Lemma post_after_delete_has_no_notification_run :
  exists w',
    SysNotifyCmd (SysNotifyDeleteCmd Demo.started) ["_sysnotify"; "Build"; "Done"]
    = Returned TCL_OK w' /\
    tk_notification <$> notify_item w' = Some None.
Proof.
  destruct (post_after_delete_has_no_notification Demo.started
              "_sysnotify" "Build" "Done" _ eq_refl) as (w' & E & Hn).
  exists w'. split; [exact E|]. now rewrite Hn.
Defined.


Lemma MacSystrayInit_renews_adapters_run :
  exists w',
    MacSystrayInit_outcome true (Demo.fresh (h := Demo.modern) tt) = Returned TCL_OK w' /\
    tk_item w' = Some TkStatusItem_init /\
    notify_item w' = Some TkNotifyItem_init /\
    callbackproc w' = None.
Proof.
  destruct (MacSystrayInit_renews_adapters (Demo.fresh (h := Demo.modern) tt))
    as (w' & E & Ht & Hn & _ & _ & _ & _ & Hc & _).
  - right. split; reflexivity.
  - exists w'. split; [exact E|]. split; [exact Ht|]. split; [exact Hn|exact Hc].
Defined.

Lemma failed_invocation_keeps_click_run :
  exists w',
    MacSystrayCmd Demo.started ["_systray"; "create"; "nosuch"; "tip"; "cb"]
    = Returned TCL_ERROR w' /\
    callbackproc w' = callbackproc Demo.started.
Proof.
  eexists. split; [reflexivity|].
  apply (failed_invocation_keeps_click Demo.started
           ["_systray"; "create"; "nosuch"; "tip"; "cb"] _ 1 None eq_refl).
Defined.

Lemma calls_keep_adapters_and_commands_run :
  let cs := [Systray ["_systray"; "create"; "icon"; "tip"; "cb"];
             Sysnotify ["_sysnotify"; "Build"; "Done"];
             Systray ["_systray"; "destroy"];
             Sysnotify ["_sysnotify"];
             Systray ["_systray"; "modify"; "text"; "again"]] in
  exists w',
    calls cs Demo.started = Some w' /\
    commands (interp w') = commands (interp Demo.started) /\
    adapters_live w' = true /\
    item_removed w' = true.
Proof.
  intros cs. eexists. split; [reflexivity|].
  match goal with
  | |- commands (interp ?w') = _ /\ _ =>
      destruct (calls_keep_adapters_and_commands cs Demo.started w' eq_refl)
        as (Hc & Ha & _)
  end.
  split; [exact Hc|]. split; [exact (Ha eq_refl) | reflexivity].
Defined.
